(** * AI-Dashboard: the data-to-prompt pipeline of [app.py]

    A shallow embedding of the three utility functions of [app.py]
    ([clean_dataframe], [build_dataset_snapshot], [local_basic_stats_text])
    and of the two button blocks of the script, over a model of the part of
    pandas and of the Python standard library they call.

    What the model of the libraries covers (pandas 2.x with its default
    options, CPython on x86-64, POSIX line ends):
    - column labels are strings, as [read_csv] and [read_excel] produce them
      from a header row of text; labels may repeat, as pandas allows.  A
      header of numbers gives integer labels, on which line 37 raises: such
      frames are outside the model;
    - a column has one of the dtypes int64, float64, bool, object, Int64,
      Float64, boolean, string; an object column holds Python ints, floats,
      strs, bools, [None] and [pd.NA].  The readers can also deliver a
      uint64 column (an integer of 2^63 or more), which [convert_dtypes]
      turns into UInt64, and a datetime64 column (the dates of a workbook),
      which it leaves alone: such columns are outside the model;
    - integers are [Z]; a Python int of an object column is taken to fit
      int64, and the int64 range enters only where [convert_dtypes] tests
      whether a float casts to an integer;
    - float64 is IEEE binary64 as [SpecFloat] specifies it.  A sum is taken
      in column order from its first term; numpy groups a long sum
      otherwise, so the last printed digit of a mean or a deviation is
      exact here only where the sum is;
    - text is a byte string; bytes above 127 count as printable, so [repr]
      is exact on ASCII text and on printable characters beyond it. *)

From Stdlib Require Import ZArith List Bool Lia.
From Stdlib Require Import Strings.String Strings.Ascii.
From Stdlib Require Import Floats.SpecFloat.
Import ListNotations.

Open Scope string_scope.
Open Scope Z_scope.

(* ------------------------------------------------------------------ *)
(** ** Text helpers *)

Module Text.

Definition LF : string := String (ascii_of_nat 10) EmptyString.
Definition dquote_char : ascii := ascii_of_nat 34.
Definition squote_char : ascii := ascii_of_nat 39.
Definition backslash_char : ascii := ascii_of_nat 92.

Definition digit_char (d : Z) : ascii := ascii_of_nat (48 + Z.to_nat d).

(** Decimal digits of a non-negative integer, most significant first;
    [fuel] bounds the number of digits. *)
Fixpoint digits_aux (fuel : nat) (n : Z) (acc : string) : string :=
  match fuel with
  | O => acc
  | S fuel' =>
      let acc' := String (digit_char (n mod 10)) acc in
      if n / 10 =? 0 then acc' else digits_aux fuel' (n / 10) acc'
  end.

Definition digits (n : Z) : string :=
  digits_aux (S (Z.to_nat (Z.log2 n))) n EmptyString.

(** Python's [str(n)] for an [int]. *)
Definition str_int (z : Z) : string :=
  if z <? 0 then "-" ++ digits (- z) else digits z.

(** Python's [str(b)] for a [bool]. *)
Definition str_bool (b : bool) : string := if b then "True" else "False".

(** Python's [sep.join(parts)]. *)
Fixpoint join (sep : string) (parts : list string) : string :=
  match parts with
  | [] => EmptyString
  | [p] => p
  | p :: rest => p ++ sep ++ join sep rest
  end.

(** [s.startswith(p)]. *)
Fixpoint startswith (p s : string) : bool :=
  match p, s with
  | EmptyString, _ => true
  | String a p', String b s' => Ascii.eqb a b && startswith p' s'
  | String _ _, EmptyString => false
  end.

Fixpoint contains_char (c : ascii) (s : string) : bool :=
  match s with
  | EmptyString => false
  | String a s' => Ascii.eqb a c || contains_char c s'
  end.

(** [s.split(sep)] for a one-character separator: never returns []. *)
Fixpoint split_on (c : ascii) (s : string) : list string :=
  match s with
  | EmptyString => [EmptyString]
  | String a s' =>
      if Ascii.eqb a c then EmptyString :: split_on c s'
      else match split_on c s' with
           | [] => [String a EmptyString]
           | l :: ls => String a l :: ls
           end
  end.

Fixpoint repeat_char (c : ascii) (n : nat) : string :=
  match n with
  | O => EmptyString
  | S n' => String c (repeat_char c n')
  end.

(** Left-pad with zeros to [width] characters. *)
Definition zfill (width : nat) (s : string) : string :=
  repeat_char "0"%char (width - String.length s) ++ s.

End Text.

(* ------------------------------------------------------------------ *)
(** ** float64: IEEE binary64 values and their Python text forms *)

Module Float64.

Definition prec : Z := 53.
Definition emax : Z := 1024.

Definition t : Type := spec_float.

Definition nan : t := S754_nan.
Definition add : t -> t -> t := SFadd prec emax.
Definition sub : t -> t -> t := SFsub prec emax.
Definition mul : t -> t -> t := SFmul prec emax.
Definition div : t -> t -> t := SFdiv prec emax.
Definition sqrt : t -> t := SFsqrt prec emax.
Definition ltb : t -> t -> bool := SFltb.
Definition eqb : t -> t -> bool := SFeqb.

(** Conversion of an integer, rounding to nearest even. *)
Definition of_Z (z : Z) : t := binary_normalize prec emax z 0 false.

Definition is_nan (x : t) : bool :=
  match x with S754_nan => true | _ => false end.

Definition int64_min : Z := - 2 ^ 63.
Definition int64_max : Z := 2 ^ 63 - 1.

(** The C cast [(int64_t) x] as numpy's [astype(int)] performs it on
    x86-64: truncation toward zero, and [INT64_MIN] for every value that
    does not fit (infinities and NaN included). *)
Definition astype_int (x : t) : Z :=
  match x with
  | S754_zero _ => 0
  | S754_finite s m e =>
      let mag := if e >=? 0 then Zpos m * 2 ^ e else Zpos m / 2 ^ (- e) in
      let v := if s then - mag else mag in
      if (int64_min <=? v) && (v <=? int64_max) then v else int64_min
  | _ => int64_min
  end.

(** One element of numpy's [arr.astype(int) == arr]. *)
Definition is_integral (x : t) : bool := eqb (of_Z (astype_int x)) x.

(** *** [format(x, ".<p>f")] *)

Definition round_half_even (num den : Z) : Z :=
  let q := num / den in
  let r := num mod den in
  match 2 * r ?= den with
  | Lt => q
  | Gt => q + 1
  | Eq => if Z.even q then q else q + 1
  end.

Definition sign_text (s : bool) : string := if s then "-" else "".

(** [r] is the value scaled by [10^p], already rounded. *)
Definition fixed_digits (p : nat) (r : Z) : string :=
  let scale := 10 ^ Z.of_nat p in
  Text.digits (r / scale) ++
  match p with
  | O => ""
  | _ => "." ++ Text.zfill p (Text.digits (r mod scale))
  end.

Definition format_f (p : nat) (x : t) : string :=
  match x with
  | S754_nan => "nan"
  | S754_infinity s => sign_text s ++ "inf"
  | S754_zero s => sign_text s ++ fixed_digits p 0
  | S754_finite s m e =>
      let scale := 10 ^ Z.of_nat p in
      let r := if e >=? 0 then Zpos m * 2 ^ e * scale
               else round_half_even (Zpos m * scale) (2 ^ (- e)) in
      sign_text s ++ fixed_digits p r
  end.

(** *** [repr(x)]: the shortest decimal string that reads back as [x] *)

(** A positive rational as numerator and (positive) denominator. *)
Definition frac : Type := (Z * Z)%type.

Definition frac_of (m e : Z) : frac :=
  if e >=? 0 then (m * 2 ^ e, 1) else (m, 2 ^ (- e)).

Definition frac_dec (d k : Z) : frac :=
  if k >=? 0 then (d * 10 ^ k, 1) else (d, 10 ^ (- k)).

Definition frac_cmp (a b : frac) : comparison :=
  (fst a * snd b ?= fst b * snd a).

(** [|a - b|], as a fraction over the common denominator. *)
Definition frac_dist (a b : frac) : frac :=
  (Z.abs (fst a * snd b - fst b * snd a), snd a * snd b).

(** Does the decimal [dec] round (to nearest, ties to even) to the float
    with canonical mantissa [m] and exponent [e]? *)
Definition reads_back (m : positive) (e : Z) (dec : frac) : bool :=
  let hi := frac_of (2 * Zpos m + 1) (e - 1) in
  let lo := if (Zpos m =? 2 ^ (prec - 1)) && (emin prec emax <? e)
            then frac_of (4 * Zpos m - 1) (e - 2)
            else frac_of (2 * Zpos m - 1) (e - 1) in
  let even := Z.even (Zpos m) in
  match frac_cmp lo dec, frac_cmp dec hi with
  | Lt, Lt => true
  | Eq, _ => even
  | _, Eq => even
  | _, _ => false
  end.

(** Smallest [j >= 1] with [num * 10^j >= den]. *)
Fixpoint neg_exp10 (fuel : nat) (num den j : Z) : Z :=
  match fuel with
  | O => j
  | S fuel' =>
      if den <=? num * 10 ^ j then j else neg_exp10 fuel' num den (j + 1)
  end.

(** [floor (log10 x)] for a positive fraction. *)
Definition floor_log10 (x : frac) : Z :=
  let (num, den) := x in
  if den <=? num
  then Z.of_nat (String.length (Text.digits (num / den))) - 1
  else - neg_exp10 400 num den 1.

(** The [p]-digit decimal nearest to [x] among those that read back as
    the float [(m, e)], as digits and decimal exponent of the last
    digit; [None] if no [p]-digit decimal reads back. *)
Definition shortest_at (m : positive) (e : Z) (p : Z) : option (Z * Z) :=
  let x := frac_of (Zpos m) e in
  let k := floor_log10 x - p + 1 in
  let (num, den) := x in
  let (snum, sden) := if k >=? 0 then (num, den * 10 ^ k)
                      else (num * 10 ^ (- k), den) in
  let dlo := snum / sden in
  let dhi := dlo + 1 in
  let oklo := reads_back m e (frac_dec dlo k) in
  let okhi := reads_back m e (frac_dec dhi k) in
  match oklo, okhi with
  | true, false => Some (dlo, k)
  | false, true => Some (dhi, k)
  | false, false => None
  | true, true =>
      match frac_cmp (frac_dist x (frac_dec dlo k))
                     (frac_dist x (frac_dec dhi k)) with
      | Lt => Some (dlo, k)
      | Gt => Some (dhi, k)
      | Eq => Some (if Z.even dlo then dlo else dhi, k)
      end
  end.

Fixpoint shortest_from (fuel : nat) (m : positive) (e : Z) (p : Z)
  : Z * Z :=
  match fuel with
  | O => (Zpos m, 0)
  | S fuel' =>
      match shortest_at m e p with
      | Some r => r
      | None => shortest_from fuel' m e (p + 1)
      end
  end.

(** Drop trailing zeros of the digit string, raising the exponent. *)
Fixpoint strip_zeros (fuel : nat) (d k : Z) : Z * Z :=
  match fuel with
  | O => (d, k)
  | S fuel' =>
      if (d mod 10 =? 0) && negb (d =? 0)
      then strip_zeros fuel' (d / 10) (k + 1) else (d, k)
  end.

Definition exp_text (x : Z) : string :=
  (if x <? 0 then "-" else "+") ++ Text.zfill 2 (Text.digits (Z.abs x)).

(** Layout of [repr]: [ds] are the significant digits and [decpt] the
    position of the decimal point relative to their start. *)
Definition layout (ds : string) (decpt : Z) : string :=
  let n := Z.of_nat (String.length ds) in
  if (decpt <=? -4) || (16 <? decpt) then
    String.substring 0 1 ds ++
    (if n =? 1 then "" else "." ++ String.substring 1 (String.length ds - 1) ds)
    ++ "e" ++ exp_text (decpt - 1)
  else if decpt <=? 0 then
    "0." ++ Text.repeat_char "0"%char (Z.to_nat (- decpt)) ++ ds
  else if n <=? decpt then
    ds ++ Text.repeat_char "0"%char (Z.to_nat (decpt - n)) ++ ".0"
  else
    String.substring 0 (Z.to_nat decpt) ds ++ "." ++
    String.substring (Z.to_nat decpt) (String.length ds - Z.to_nat decpt) ds.

(** Python's [repr(x)] ([str(x)] is the same) for a float. *)
Definition repr (x : t) : string :=
  match x with
  | S754_nan => "nan"
  | S754_infinity s => sign_text s ++ "inf"
  | S754_zero s => sign_text s ++ "0.0"
  | S754_finite s m e =>
      let (d0, k0) := shortest_from 17 m e 1 in
      let (d, k) := strip_zeros 400 d0 k0 in
      let ds := Text.digits d in
      sign_text s ++ layout ds (k + Z.of_nat (String.length ds))
  end.

End Float64.

(* ------------------------------------------------------------------ *)
(** ** The pandas data model *)

Module Pandas.

(** A Python object as an object-dtype column holds it; also the boxed
    form of any cell ([df.iat[i, j]]).  A float NaN is [PyFloat nan]. *)
Inductive PyObj : Type :=
| PyInt (z : Z)
| PyFloat (x : Float64.t)
| PyStr (s : string)
| PyBool (b : bool)
| PyNone
| PyNA.

Inductive Dtype : Type :=
| D_int64 | D_float64 | D_bool | D_object
| D_Int64 | D_Float64 | D_boolean | D_string.

(** A column with its storage.  The numpy dtypes have no missing marker
    of their own (float64 uses NaN); the nullable extension dtypes carry a
    mask, [None] standing for [pd.NA]. *)
Inductive Series : Type :=
| S_int64 (v : list Z)
| S_float64 (v : list Float64.t)
| S_bool (v : list bool)
| S_object (v : list PyObj)
| S_Int64 (v : list (option Z))
| S_Float64 (v : list (option Float64.t))
| S_boolean (v : list (option bool))
| S_string (v : list (option string)).

Definition dtype (s : Series) : Dtype :=
  match s with
  | S_int64 _ => D_int64 | S_float64 _ => D_float64
  | S_bool _ => D_bool | S_object _ => D_object
  | S_Int64 _ => D_Int64 | S_Float64 _ => D_Float64
  | S_boolean _ => D_boolean | S_string _ => D_string
  end.

(** The column has a nullable extension dtype. *)
Definition nullable (s : Series) : bool :=
  match s with
  | S_Int64 _ | S_Float64 _ | S_boolean _ | S_string _ => true
  | _ => false
  end.

Definition dtype_eqb (a b : Dtype) : bool :=
  match a, b with
  | D_int64, D_int64 | D_float64, D_float64 | D_bool, D_bool
  | D_object, D_object | D_Int64, D_Int64 | D_Float64, D_Float64
  | D_boolean, D_boolean | D_string, D_string => true
  | _, _ => false
  end.

Definition box {A} (f : A -> PyObj) (o : option A) : PyObj :=
  match o with Some a => f a | None => PyNA end.

(** The cells of a column as Python objects. *)
Definition values (s : Series) : list PyObj :=
  match s with
  | S_int64 v => map PyInt v
  | S_float64 v => map PyFloat v
  | S_bool v => map PyBool v
  | S_object v => v
  | S_Int64 v => map (box PyInt) v
  | S_Float64 v => map (box PyFloat) v
  | S_boolean v => map (box PyBool) v
  | S_string v => map (box PyStr) v
  end.

Definition size (s : Series) : nat := List.length (values s).

(** A frame: the number of rows (the length of its index) and the
    labelled columns in order.  Labels may repeat, as pandas allows. *)
Record DataFrame : Type := mkDataFrame {
  nrows : nat;
  data : list (string * Series)
}.

Definition columns (df : DataFrame) : list string := map fst (data df).

(** [df.shape] *)
Definition shape (df : DataFrame) : Z * Z :=
  (Z.of_nat (nrows df), Z.of_nat (List.length (data df))).

(** [len(df)] *)
Definition len (df : DataFrame) : Z := Z.of_nat (nrows df).

(** Every column has one cell per row. *)
Definition well_formed (df : DataFrame) : Prop :=
  Forall (fun c => size (snd c) = nrows df) (data df).

(** *** Missing values *)

(** [pd.isna] on one object. *)
Definition isna (o : PyObj) : bool :=
  match o with
  | PyNone | PyNA => true
  | PyFloat x => Float64.is_nan x
  | _ => false
  end.

Definition is_int (o : PyObj) : bool :=
  match o with PyInt _ => true | _ => false end.
Definition is_float (o : PyObj) : bool :=
  match o with PyFloat _ => true | _ => false end.
Definition is_bool (o : PyObj) : bool :=
  match o with PyBool _ => true | _ => false end.
Definition is_str (o : PyObj) : bool :=
  match o with PyStr _ => true | _ => false end.
Definition is_none (o : PyObj) : bool :=
  match o with PyNone => true | _ => false end.
Definition is_NA (o : PyObj) : bool :=
  match o with PyNA => true | _ => false end.
Definition is_nan_float (o : PyObj) : bool :=
  match o with PyFloat x => Float64.is_nan x | _ => false end.

(** *** [Series.infer_objects()]: soft conversion of an object column
    ([lib.maybe_convert_objects] with [convert_non_numeric=True]).  The
    scan sets one flag per kind of element seen. *)
Definition to_float_or_nan (o : PyObj) : Float64.t :=
  match o with
  | PyInt z => Float64.of_Z z
  | PyFloat x => x
  | _ => Float64.nan
  end.

Definition to_int_or_zero (o : PyObj) : Z :=
  match o with PyInt z => z | _ => 0 end.

Definition to_bool_or_false (o : PyObj) : bool :=
  match o with PyBool b => b | _ => false end.

Definition maybe_convert_objects (v : list PyObj) : Series :=
  let seen_null := existsb is_none v in
  let seen_nan := existsb is_nan_float v in
  let seen_bool := existsb is_bool v in
  let seen_float := existsb (fun o => is_float o && negb (is_nan_float o)) v in
  let seen_int := existsb is_int v in
  let seen_str := existsb is_str v in
  let seen_object := existsb is_NA v || seen_str in
  if seen_object then S_object v
  else if seen_bool then
    if seen_nan || seen_null || seen_float || seen_int
    then S_object v
    else S_bool (map to_bool_or_false v)
  else if seen_null || seen_nan then
    if seen_float || seen_int || seen_nan
    then S_float64 (map to_float_or_nan v)
    else S_object v
  else if seen_float then S_float64 (map to_float_or_nan v)
  else if seen_int then S_int64 (map to_int_or_zero v)
  else S_object v.

Definition infer_objects (s : Series) : Series :=
  match s with
  | S_object v => maybe_convert_objects v
  | _ => s
  end.

(** *** [lib.infer_dtype(values, skipna=True)] on an object array *)
Inductive Inferred : Type :=
| I_empty | I_integer | I_integer_na | I_mixed_integer_float
| I_mixed_integer | I_floating | I_boolean | I_string | I_mixed.

Definition infer_dtype (v : list PyObj) : Inferred :=
  let fallthrough := if existsb is_int v then I_mixed_integer else I_mixed in
  match find (fun o => negb (isna o)) v with
  | None => I_empty
  | Some (PyInt _) =>
      if forallb (fun o => is_int o || isna o) v then I_integer
      else if forallb (fun o => is_int o || is_float o || isna o) v then
        if forallb (fun o => is_int o || is_nan_float o || isna o) v
        then I_integer_na else I_mixed_integer_float
      else I_mixed_integer
  | Some (PyFloat _) =>
      if forallb is_float v then I_floating
      else if forallb (fun o => is_int o || is_float o || isna o) v then
        if forallb (fun o => is_int o || is_nan_float o || isna o) v
        then I_integer_na else I_mixed_integer_float
      else fallthrough
  | Some (PyBool _) =>
      if forallb (fun o => is_bool o || isna o) v then I_boolean
      else fallthrough
  | Some (PyStr _) =>
      if forallb (fun o => is_str o || isna o) v then I_string
      else fallthrough
  | Some _ => fallthrough
  end.

(** *** Casts to the nullable dtypes ([Series.astype(<extension dtype>)]) *)

Definition float_to_Int64 (x : Float64.t) : option Z :=
  if Float64.is_nan x then None else Some (Float64.astype_int x).

Definition float_to_Float64 (x : Float64.t) : option Float64.t :=
  if Float64.is_nan x then None else Some x.

Definition obj_to_Int64 (o : PyObj) : option Z :=
  match o with PyInt z => Some z | _ => None end.

Definition obj_to_Float64 (o : PyObj) : option Float64.t :=
  match o with
  | PyInt z => Some (Float64.of_Z z)
  | PyFloat x => float_to_Float64 x
  | _ => None
  end.

Definition obj_to_boolean (o : PyObj) : option bool :=
  match o with PyBool b => Some b | _ => None end.

Definition obj_to_string (o : PyObj) : option string :=
  match o with PyStr s => Some s | _ => None end.

(** *** [Series.convert_dtypes()] with its default arguments: soft
    conversion of objects, then the choice of a nullable dtype
    ([pandas.core.dtypes.cast.convert_dtypes]) and the cast to it.  A
    column that already has an extension dtype is returned as it is. *)
Definition convert_dtypes_series (s : Series) : Series :=
  match infer_objects s with
  | S_int64 v => S_Int64 (map Some v)
  | S_float64 v =>
      if forallb Float64.is_integral
                 (filter (fun x => negb (Float64.is_nan x)) v)
      then S_Int64 (map float_to_Int64 v)
      else S_Float64 (map float_to_Float64 v)
  | S_bool v => S_boolean (map Some v)
  | S_object v =>
      match infer_dtype v with
      | I_string => S_string (map obj_to_string v)
      | I_integer => S_Int64 (map obj_to_Int64 v)
      | I_mixed_integer_float => S_Float64 (map obj_to_Float64 v)
      | I_boolean => S_boolean (map obj_to_boolean v)
      | _ => S_object v
      end
  | s' => s'
  end.

Definition map_series (f : Series -> Series) (df : DataFrame) : DataFrame :=
  mkDataFrame (nrows df) (map (fun c => (fst c, f (snd c))) (data df)).

(** [df.convert_dtypes()] *)
Definition convert_dtypes (df : DataFrame) : DataFrame :=
  map_series convert_dtypes_series df.

(** *** [Series.astype(str)]: every cell becomes its [str()]; the
    result has object dtype (pandas 2.x). *)
Definition str_obj (o : PyObj) : string :=
  match o with
  | PyInt z => Text.str_int z
  | PyFloat x => Float64.repr x
  | PyStr s => s
  | PyBool b => Text.str_bool b
  | PyNone => "None"
  | PyNA => "<NA>"
  end.

Definition astype_str (s : Series) : Series :=
  S_object (map (fun o => PyStr (str_obj o)) (values s)).

(** *** Column selection *)

(** [df.loc[:, mask]] with a boolean mask over the columns. *)
Definition loc_columns (mask : string -> bool) (df : DataFrame) : DataFrame :=
  mkDataFrame (nrows df) (filter (fun c => mask (fst c)) (data df)).

(** [df.select_dtypes(include=dts)] *)
Definition select_dtypes (include : list Dtype) (df : DataFrame) : DataFrame :=
  mkDataFrame (nrows df)
    (filter (fun c => existsb (dtype_eqb (dtype (snd c))) include) (data df)).

(** [df[col] = f(df[col])]: assignment by label, which reaches every
    column carrying the label. *)
Definition assign_map (col : string) (f : Series -> Series) (df : DataFrame)
  : DataFrame :=
  mkDataFrame (nrows df)
    (map (fun c => if String.eqb (fst c) col then (fst c, f (snd c)) else c)
         (data df)).

(** [df.columns.str.contains("^Unnamed")] on one label: a regular
    expression search, so the anchored literal matches exactly the labels
    that begin with it. *)
Definition str_contains_caret (literal : string) (label : string) : bool :=
  Text.startswith literal label.

End Pandas.

(* ------------------------------------------------------------------ *)
(** ** [clean_dataframe] *)

Import Pandas.

Definition clean_dataframe (df : DataFrame) : DataFrame :=
  (* df = df.loc[:, ~df.columns.str.contains("^Unnamed")] *)
  let df := loc_columns (fun c => negb (str_contains_caret "Unnamed" c)) df in
  (* df = df.convert_dtypes() *)
  let df := convert_dtypes df in
  (* for col in df.select_dtypes(include=['object']).columns:
         df[col] = df[col].astype(str) *)
  fold_left (fun df col => assign_map col astype_str df)
            (columns (select_dtypes [D_object] df)) df.

(* ------------------------------------------------------------------ *)
(** ** Python and pandas text output used by the snapshot *)

Module PyText.

(** [xs[:n]] *)
Definition slice_to {A : Type} (n : Z) (xs : list A) : list A :=
  if n <? 0 then firstn (Z.to_nat (Z.of_nat (List.length xs) + n)) xs
  else firstn (Z.to_nat n) xs.

Definition hex_digit (n : nat) : ascii :=
  ascii_of_nat (if Nat.ltb n 10 then 48 + n else 87 + n).

(** One character of [repr(s)], [q] being the quote chosen. *)
Definition repr_char (q c : ascii) : string :=
  let n := nat_of_ascii c in
  if Ascii.eqb c Text.backslash_char then
    String Text.backslash_char (String Text.backslash_char EmptyString)
  else if Ascii.eqb c q then String Text.backslash_char (String q EmptyString)
  else if Nat.eqb n 10 then String Text.backslash_char "n"
  else if Nat.eqb n 13 then String Text.backslash_char "r"
  else if Nat.eqb n 9 then String Text.backslash_char "t"
  else if Nat.ltb n 32 || Nat.eqb n 127 then
    String Text.backslash_char
      (String "x" (String (hex_digit (n / 16)) (String (hex_digit (n mod 16)) EmptyString)))
  else String c EmptyString.

Fixpoint repr_body (q : ascii) (s : string) : string :=
  match s with
  | EmptyString => EmptyString
  | String c s' => repr_char q c ++ repr_body q s'
  end.

(** [repr(s)] for a [str]: single quotes unless the text has a single
    quote and no double quote. *)
Definition repr_str (s : string) : string :=
  let q := if Text.contains_char Text.squote_char s
              && negb (Text.contains_char Text.dquote_char s)
           then Text.dquote_char else Text.squote_char in
  String q (repr_body q s) ++ String q EmptyString.

(** [str(xs)] for a list of [str], as an f-string renders [{cols}]. *)
Definition str_list (xs : list string) : string :=
  "[" ++ Text.join ", " (map repr_str xs) ++ "]".

(** *** [textwrap.dedent] *)

Definition is_blank_char (c : ascii) : bool :=
  Ascii.eqb c " "%char || Nat.eqb (nat_of_ascii c) 9.

Fixpoint leading_blank (s : string) : string :=
  match s with
  | String c s' => if is_blank_char c then String c (leading_blank s') else EmptyString
  | EmptyString => EmptyString
  end.

Fixpoint drop (n : nat) (s : string) : string :=
  match n, s with
  | S n', String _ s' => drop n' s'
  | _, _ => s
  end.

(** The line consists of blanks only ([^[ \t]+$] or the empty line). *)
Definition blank_line (s : string) : bool :=
  String.eqb (leading_blank s) s.

Fixpoint common_prefix (a b : string) : string :=
  match a, b with
  | String x a', String y b' =>
      if Ascii.eqb x y then String x (common_prefix a' b') else EmptyString
  | _, _ => EmptyString
  end.

Definition margin_step (margin : option string) (indent : string)
  : option string :=
  match margin with
  | None => Some indent
  | Some m =>
      if Text.startswith m indent then Some m
      else if Text.startswith indent m then Some indent
      else Some (common_prefix m indent)
  end.

Definition dedent (text : string) : string :=
  let lines := map (fun l => if blank_line l then EmptyString else l)
                   (Text.split_on (ascii_of_nat 10) text) in
  let indents := map leading_blank
                     (filter (fun l => negb (String.eqb l EmptyString)) lines) in
  match fold_left margin_step indents None with
  | Some (String c m) =>
      let margin := String c m in
      Text.join Text.LF
        (map (fun l => if Text.startswith margin l
                       then drop (String.length margin) l else l) lines)
  | _ => Text.join Text.LF lines
  end.

(** *** [DataFrame.to_csv(index=False)] returned as a string *)

(** [os.linesep] on POSIX. *)
Definition linesep : string := Text.LF.

(** The text of one cell; missing values are written as [na_rep=''] . *)
Definition csv_cell (o : PyObj) : string :=
  if isna o then EmptyString else str_obj o.

(** The characters that make [csv.QUOTE_MINIMAL] quote a field: the
    delimiter, the quote character and those of the line terminator. *)
Definition csv_special (c : ascii) : bool :=
  Ascii.eqb c ","%char || Ascii.eqb c Text.dquote_char
  || Text.contains_char c linesep.

Fixpoint csv_needs_quotes (s : string) : bool :=
  match s with
  | EmptyString => false
  | String c s' => csv_special c || csv_needs_quotes s'
  end.

Fixpoint csv_double_quotes (s : string) : string :=
  match s with
  | EmptyString => EmptyString
  | String c s' =>
      if Ascii.eqb c Text.dquote_char
      then String c (String c (csv_double_quotes s'))
      else String c (csv_double_quotes s')
  end.

(** [csv.QUOTE_MINIMAL] with [doublequote=True]. *)
Definition csv_field (s : string) : string :=
  if csv_needs_quotes s
  then String Text.dquote_char (csv_double_quotes s)
       ++ String Text.dquote_char EmptyString
  else s.

(** [writer.writerow(fields)]; a record that would be empty although it
    has a field is written as an empty quoted field. *)
Definition csv_record (fields : list string) : string :=
  let rec := Text.join "," (map csv_field fields) in
  (match fields with
   | [] => rec
   | _ => if String.eqb rec EmptyString
          then String Text.dquote_char (String Text.dquote_char EmptyString)
          else rec
   end) ++ linesep.

Definition csv_row (df : DataFrame) (i : nat) : list string :=
  map (fun c => nth i (map csv_cell (values (snd c))) EmptyString) (data df).

Definition to_csv (df : DataFrame) : string :=
  String.concat EmptyString
    (csv_record (columns df) :: map (fun i => csv_record (csv_row df i)) (seq 0 (nrows df))).

End PyText.

Import PyText.

(* ------------------------------------------------------------------ *)
(** ** [build_dataset_snapshot] *)

Definition slice_series (n : Z) (s : Series) : Series :=
  match s with
  | S_int64 v => S_int64 (slice_to n v)
  | S_float64 v => S_float64 (slice_to n v)
  | S_bool v => S_bool (slice_to n v)
  | S_object v => S_object (slice_to n v)
  | S_Int64 v => S_Int64 (slice_to n v)
  | S_Float64 v => S_Float64 (slice_to n v)
  | S_boolean v => S_boolean (slice_to n v)
  | S_string v => S_string (slice_to n v)
  end.

(** [df.head(n)], that is [df.iloc[:n]]. *)
Definition head (n : Z) (df : DataFrame) : DataFrame :=
  mkDataFrame (List.length (slice_to n (seq 0 (nrows df))))
              (map (fun c => (fst c, slice_series n (snd c))) (data df)).

Definition numeric_dtypes : list Dtype := [D_int64; D_float64; D_Int64; D_Float64].
Definition text_dtypes : list Dtype := [D_string; D_object].

(** The f-string of [build_dataset_snapshot], before [textwrap.dedent]. *)
Definition snapshot_template
  (shape : Z * Z) (cols numeric cat : list string) (first : Z) (rows_text : string)
  : string :=
  Text.LF ++
  "    Dataset shape: " ++ Text.str_int (fst shape) ++ " rows x "
    ++ Text.str_int (snd shape) ++ " columns" ++ Text.LF ++
  "    Columns: " ++ str_list cols ++ Text.LF ++
  "    Numeric columns: " ++ str_list numeric ++ Text.LF ++
  "    Categorical/text columns: " ++ str_list cat ++ Text.LF ++
  Text.LF ++
  "    First " ++ Text.str_int first ++ " rows (CSV):" ++ Text.LF ++
  "    " ++ rows_text ++ Text.LF ++
  "    ".

Definition build_dataset_snapshot (df : DataFrame) (max_rows : Z) : string :=
  let rows_text := to_csv (head max_rows df) in
  let cols := columns df in
  let shape := shape df in
  let numeric := columns (select_dtypes numeric_dtypes df) in
  let cat := columns (select_dtypes text_dtypes df) in
  dedent (snapshot_template shape cols numeric cat
                            (Z.min max_rows (len df)) rows_text).

(* ------------------------------------------------------------------ *)
(** ** [local_basic_stats_text] *)

(** A raised Python exception, or a value. *)
Inductive Exn : Type :=
| TypeError (msg : string)
| KeyError (msg : string).

Inductive Result (A : Type) : Type :=
| Ok (a : A)
| Raise (e : Exn).
Arguments Ok {A} a.
Arguments Raise {A} e.

Definition bind {A B : Type} (r : Result A) (k : A -> Result B) : Result B :=
  match r with
  | Ok a => k a
  | Raise e => Raise e
  end.

Notation "x <- r ;; k" := (bind r (fun x => k))
  (at level 61, r at next level, right associativity).

(** [for x in xs: out.append(f(x))], stopping at the first exception. *)
Fixpoint for_each {A B : Type} (f : A -> Result B) (xs : list A)
  : Result (list B) :=
  match xs with
  | [] => Ok []
  | x :: xs' => y <- f x ;; ys <- for_each f xs' ;; Ok (y :: ys)
  end.

Module Stats.

(** A scalar taken out of [describe()] or returned by a reduction: a
    float (possibly NaN), or [pd.NA] for a nullable column. *)
Inductive Scalar : Type :=
| Num (x : Float64.t)
| NA.

(** [f"{v:.<p>f}"]: [NAType.__format__] falls back to [repr] when the
    format code does not apply to a string. *)
Definition format_f (p : nat) (v : Scalar) : string :=
  match v with
  | Num x => Float64.format_f p x
  | NA => "<NA>"
  end.

Fixpoint somes {A : Type} (v : list (option A)) : list A :=
  match v with
  | [] => []
  | Some a :: v' => a :: somes v'
  | None :: v' => somes v'
  end.

(** The non-missing values of a numeric column, as float64. *)
Definition present (s : Series) : list Float64.t :=
  match s with
  | S_int64 v => map Float64.of_Z v
  | S_float64 v => filter (fun x => negb (Float64.is_nan x)) v
  | S_Int64 v => map Float64.of_Z (somes v)
  | S_Float64 v => somes v
  | _ => []
  end.

(** The result of a reduction as the column's dtype reports it: a masked
    column turns a NaN result into [pd.NA]. *)
Definition scalar_of (s : Series) (x : Float64.t) : Scalar :=
  if nullable s && Float64.is_nan x then NA else Num x.

(** Sum in column order, from the first term.  numpy adds a long sum in
    eight lanes and a masked one run by run from +0.0: the value here is
    numpy's whenever the partial sums are exact, and may differ from it in
    the last place, or in the sign of a zero, otherwise. *)
Definition fsum (xs : list Float64.t) : Float64.t :=
  match xs with
  | [] => Float64.of_Z 0
  | x :: xs' => fold_left Float64.add xs' x
  end.

Definition fcount (xs : list Float64.t) : Float64.t :=
  Float64.of_Z (Z.of_nat (List.length xs)).

Definition fmean (xs : list Float64.t) : Float64.t :=
  match xs with
  | [] => Float64.nan
  | _ => Float64.div (fsum xs) (fcount xs)
  end.

(** Sample standard deviation, [ddof=1]: the division by [count - 1] is
    0/0 for a single value. *)
Definition fstd (xs : list Float64.t) : Float64.t :=
  match xs with
  | [] | [_] => Float64.nan
  | _ =>
      let avg := fmean xs in
      let sqr := map (fun x => let d := Float64.sub avg x in Float64.mul d d) xs in
      Float64.sqrt
        (Float64.div (fsum sqr)
                     (Float64.of_Z (Z.of_nat (List.length xs) - 1)))
  end.

Definition fmin (xs : list Float64.t) : Float64.t :=
  match xs with
  | [] => Float64.nan
  | x :: xs' => fold_left (fun m y => if Float64.ltb y m then y else m) xs' x
  end.

Definition fmax (xs : list Float64.t) : Float64.t :=
  match xs with
  | [] => Float64.nan
  | x :: xs' => fold_left (fun m y => if Float64.ltb m y then y else m) xs' x
  end.

Fixpoint insert_sorted (x : Float64.t) (xs : list Float64.t) : list Float64.t :=
  match xs with
  | [] => [x]
  | y :: ys => if Float64.ltb y x then y :: insert_sorted x ys else x :: y :: ys
  end.

Definition sort (xs : list Float64.t) : list Float64.t :=
  fold_right insert_sorted [] xs.

Definition fmedian (xs : list Float64.t) : Float64.t :=
  let n := List.length xs in
  let sorted := sort xs in
  match n with
  | O => Float64.nan
  | _ =>
      if Nat.even n
      then Float64.div
             (Float64.add (nth (n / 2 - 1) sorted Float64.nan)
                          (nth (n / 2) sorted Float64.nan))
             (Float64.of_Z 2)
      else nth (n / 2) sorted Float64.nan
  end.

(** One row of [nums.describe().transpose()]; the quartiles are computed
    by pandas too but the program never reads them. *)
Record DescribeRow : Type := mkDescribeRow {
  d_count : Scalar;
  d_mean : Scalar;
  d_std : Scalar;
  d_min : Scalar;
  d_max : Scalar
}.

Definition describe_series (s : Series) : DescribeRow :=
  let xs := present s in
  mkDescribeRow (Num (fcount xs))
                (scalar_of s (fmean xs))
                (scalar_of s (fstd xs))
                (scalar_of s (fmin xs))
                (scalar_of s (fmax xs)).

(** [nums.describe().transpose()]: one row per column, labelled by the
    column. *)
Definition describe_transpose (nums : DataFrame) : list (string * DescribeRow) :=
  map (fun c => (fst c, describe_series (snd c))) (data nums).

(** [Series.median()] *)
Definition median (s : Series) : Scalar := scalar_of s (fmedian (present s)).

End Stats.

(** The f-string of one per-column line. *)
Definition stats_line (col mean median std min_val max_val count : string) : string :=
  "- " ++ col ++ ": mean=" ++ mean ++ ", median=" ++ median ++ ", std=" ++ std
  ++ ", min=" ++ min_val ++ ", max=" ++ max_val ++ ", n=" ++ count.

(** The body of the loop for one label.  [desc.loc[col, 'mean']] and
    [nums[col]] are scalars and a column only when the label is unique: a
    repeated label selects several rows, and formatting the resulting
    Series with [:.3f] raises. *)
Definition stats_entry (nums : DataFrame) (desc : list (string * Stats.DescribeRow))
  (col : string) : Result string :=
  match filter (fun r => String.eqb (fst r) col) desc,
        filter (fun c => String.eqb (fst c) col) (data nums) with
  | [(_, r)], [(_, s)] =>
      Ok (stats_line col
            (Stats.format_f 3 (Stats.d_mean r))
            (Stats.format_f 3 (Stats.median s))
            (Stats.format_f 3 (Stats.d_std r))
            (Stats.format_f 3 (Stats.d_min r))
            (Stats.format_f 3 (Stats.d_max r))
            (Stats.format_f 0 (Stats.d_count r)))
  | [], _ | _, [] => Raise (KeyError col)
  | _, _ => Raise (TypeError "unsupported format string passed to Series.__format__")
  end.

Definition more_line (n : Z) : string :=
  "...and " ++ Text.str_int n ++ " more numeric columns.".

Definition local_basic_stats_text (df : DataFrame) (numeric_limit : Z)
  : Result string :=
  let nums := select_dtypes numeric_dtypes df in
  if snd (shape nums) =? 0 then Ok "No numeric columns detected."
  else
    let desc := Stats.describe_transpose nums in
    stats <- for_each (stats_entry nums desc)
                      (slice_to numeric_limit (map fst desc)) ;;
    let stats :=
      if numeric_limit <? snd (shape nums)
      then (stats ++ [more_line (snd (shape nums) - numeric_limit)])%list
      else stats in
    Ok (Text.join Text.LF stats).

(* ------------------------------------------------------------------ *)
(** ** The "Ask" and "Generate Summary" actions of the script *)

Module App.

Definition MODEL_NAME : string := "llama-3.1-8b-instant".

Record Message : Type := mkMessage { role : string; content : string }.

(** The arguments of [GROQ_CLIENT.chat.completions.create]. *)
Record Request : Type := mkRequest {
  model : string;
  messages : list Message;
  temperature : Float64.t
}.

(** The completion service: the text of the first choice, or the
    message of the exception raised. *)
Definition CompletionClient : Type := Request -> string + string.

(** What one run of the script does that is visible outside it. *)
Inductive Event : Type :=
| st_spinner (text : string)
| create (req : Request)
| st_write (text : string)
| st_error (text : string)
| st_info (text : string).

(** Python truth value of a [str]. *)
Definition truthy (s : string) : bool := negb (String.eqb s EmptyString).

Definition ask_prompt (snapshot_text local_stats user_question : string) : string :=
  Text.LF ++
  "        You are a helpful data analyst. Use ONLY the dataset provided below to answer the user's question." ++ Text.LF ++
  "        Do not hallucinate. If the question is ambiguous, explicitly state assumptions and compute using the data." ++ Text.LF ++
  Text.LF ++
  "        DATASET SNAPSHOT:" ++ Text.LF ++
  "        " ++ snapshot_text ++ Text.LF ++
  Text.LF ++
  "        LOCAL STATS:" ++ Text.LF ++
  "        " ++ local_stats ++ Text.LF ++
  Text.LF ++
  "        USER QUESTION:" ++ Text.LF ++
  "        " ++ user_question ++ Text.LF ++
  Text.LF ++
  "        Provide a concise, step-by-step answer explaining any computations you did." ++ Text.LF ++
  "        ".

Definition summary_prompt (snapshot_text local_stats : string) : string :=
  Text.LF ++
  "        You are a data analyst. Summarize the dataset below in plain English." ++ Text.LF ++
  "        Include: number of rows, number of columns, top 3 numeric columns by variance, any missing-data concerns," ++ Text.LF ++
  "        and 3 actionable insights the user should investigate. Use ONLY the provided data." ++ Text.LF ++
  Text.LF ++
  "        DATASET SNAPSHOT:" ++ Text.LF ++
  "        " ++ snapshot_text ++ Text.LF ++
  Text.LF ++
  "        LOCAL STATS:" ++ Text.LF ++
  "        " ++ local_stats ++ Text.LF ++
  Text.LF ++
  "        Produce a short human-friendly summary (3–6 paragraphs)." ++ Text.LF ++
  "        ".

Definition request (prompt : string) : Request :=
  mkRequest MODEL_NAME [mkMessage "user" prompt]
            (Float64.div (Float64.of_Z 2) (Float64.of_Z 10)).

Definition model_hint : string :=
  "The model ID was deprecated. We have updated it to 'llama-3.1-8b-instant'. Please verify your Groq API key is correct.".

(** The body shared by both buttons: spinner, request, and either the
    answer under [heading] or the error with its hint. *)
Definition complete (client : CompletionClient) (spinner heading prompt : string)
  : list Event :=
  let req := request prompt in
  st_spinner spinner :: create req ::
  match client req with
  | inl answer => [st_write heading; st_write answer]
  | inr e => [st_error ("Groq API Error: " ++ e); st_info model_hint]
  end.

(** [if ask_btn and user_question:] binds [prompt] only inside the
    branch. *)
Definition ask_prompt_built
  (ask_btn : bool) (snapshot_text local_stats user_question : string)
  : option string :=
  if ask_btn && truthy user_question
  then Some (ask_prompt snapshot_text local_stats user_question)
  else None.

Definition ask_action (client : CompletionClient)
  (ask_btn : bool) (snapshot_text local_stats user_question : string)
  : list Event :=
  match ask_prompt_built ask_btn snapshot_text local_stats user_question with
  | Some prompt =>
      complete client "Processing with Groq (Fast API)..."
               "### 🧠 AI Answer (via Groq Llama 3.1)" prompt
  | None => []
  end.

Definition summary_action (client : CompletionClient)
  (summary_btn : bool) (snapshot_text local_stats : string) : list Event :=
  if summary_btn
  then complete client "Generating summary with Groq (Fast API)..."
                "### 📝 Generated Summary (via Groq Llama 3.1)"
                (summary_prompt snapshot_text local_stats)
  else [].

(** The two button blocks, in script order, for one run. *)
Definition actions (client : CompletionClient)
  (ask_btn summary_btn : bool) (snapshot_text local_stats user_question : string)
  : list Event :=
  (ask_action client ask_btn snapshot_text local_stats user_question
   ++ summary_action client summary_btn snapshot_text local_stats)%list.

End App.


(* ------------------------------------------------------------------ *)
(** ** Notions used to state the properties *)



(** A column of one nullable dtype, or an object column of strings only. *)
Definition uniform_column (s : Series) : bool :=
  match s with
  | S_Int64 _ | S_Float64 _ | S_boolean _ | S_string _ => true
  | S_object v => forallb is_str v
  | _ => false
  end.

(** The semantic kind behind a dtype. *)
Inductive Kind : Type := Integer | Float | Text | Boolean.

Definition kind (d : Dtype) : Kind :=
  match d with
  | D_int64 | D_Int64 => Integer
  | D_float64 | D_Float64 => Float
  | D_object | D_string => Text
  | D_bool | D_boolean => Boolean
  end.

(** A frame as the specification's table: row count and, per column,
    label, kind and cells. *)
Definition view_column (c : string * Series) : string * Kind * list PyObj :=
  (fst c, kind (dtype (snd c)), values (snd c)).

Definition table_view (df : DataFrame)
  : nat * list (string * Kind * list PyObj) :=
  (nrows df, map view_column (data df)).

(** The steps of [clean_dataframe] on one column. *)
Definition kept (c : string * Series) : bool :=
  negb (str_contains_caret "Unnamed" (fst c)).

Definition converted (c : string * Series) : string * Series :=
  (fst c, convert_dtypes_series (snd c)).

Definition is_object (c : string * Series) : bool :=
  existsb (dtype_eqb (dtype (snd c))) [D_object].

Definition object_labels (cs : list (string * Series)) : list string :=
  map fst (filter is_object (map converted (filter kept cs))).

Definition retag (labels : list string) (c : string * Series) : string * Series :=
  if existsb (String.eqb (fst c)) labels then (fst c, astype_str (snd c)) else c.

Fixpoint nodupb (xs : list string) : bool :=
  match xs with
  | [] => true
  | x :: xs' => negb (existsb (String.eqb x) xs') && nodupb xs'
  end.

(** *** Example tables *)

Definition flags_table : DataFrame :=
  mkDataFrame 2 [("id", S_int64 [1; 2]);
                 ("name", S_object [PyStr "ann"; PyStr "bob"]);
                 ("active", S_bool [true; false])].

Definition mixed_table : DataFrame :=
  mkDataFrame 3 [("x", S_object [PyInt 1; PyStr "a"; PyNone])].

(** A column mixing an integer and a string with each of the three missing
    markers: [None], a float NaN and [pd.NA]. *)
Definition mixed_missing_table : DataFrame :=
  mkDataFrame 5
    [("x", S_object [PyInt 1; PyStr "a"; PyNone; PyFloat Float64.nan; PyNA])].

Definition sales_table : DataFrame :=
  mkDataFrame 3
    [("Unnamed: 0", S_int64 [0; 1; 2]);
     ("Manufacturer", S_object [PyStr "Acme"; PyStr "Acme"; PyStr "Globex"]);
     ("Sales", S_int64 [100; 150; 200])].

Definition unnamed_table : DataFrame :=
  mkDataFrame 2
    [("Unnamed: 0", S_int64 [0; 1]);
     ("Unnamed", S_object [PyStr "n/a"; PyStr "tbd"]);
     ("Sales", S_int64 [100; 150])].

(** Twelve numeric columns "n1" ... "n12", as read and as cleaned. *)
Definition twelve_raw : DataFrame :=
  mkDataFrame 2
    (map (fun i => ("n" ++ Text.str_int i, S_int64 [i; 3 * i]))
         [1; 2; 3; 4; 5; 6; 7; 8; 9; 10; 11; 12]).

Definition twelve_numeric : DataFrame := clean_dataframe twelve_raw.

Definition text_only_table : DataFrame :=
  mkDataFrame 2 [("name", S_string [Some "ann"; Some "bob"]);
                 ("note", S_object [PyStr "x"; PyStr "y"])].

(** A price column with a single value present. *)
Definition one_price_table : DataFrame :=
  mkDataFrame 3
    [("item", S_object [PyStr "a"; PyStr "b"; PyStr "c"]);
     ("price", S_float64 [Float64.nan;
                          Float64.div (Float64.of_Z 7) (Float64.of_Z 2);
                          Float64.nan])].

(** *** The report of a table whose numeric labels are distinct *)

(** The per-column line, computed from the column itself. *)
Definition column_line (c : string * Series) : string :=
  let r := Stats.describe_series (snd c) in
  stats_line (fst c)
    (Stats.format_f 3 (Stats.d_mean r))
    (Stats.format_f 3 (Stats.median (snd c)))
    (Stats.format_f 3 (Stats.d_std r))
    (Stats.format_f 3 (Stats.d_min r))
    (Stats.format_f 3 (Stats.d_max r))
    (Stats.format_f 0 (Stats.d_count r)).

(* ------------------------------------------------------------------ *)
(** ** The script around the utility functions

    One run of [app.py] from top to bottom, as Streamlit re-runs it on every
    interaction: the credential check, the upload and its reading, the
    preparation of the prompt assets and the two button blocks. *)

Module StrMethods.

(** [c.lower()] on an ASCII letter; other bytes are left as they are,
    which does not change whether a name ends with ".csv". *)
Definition lower_char (c : ascii) : ascii :=
  let n := nat_of_ascii c in
  if Nat.leb 65 n && Nat.leb n 90 then ascii_of_nat (n + 32) else c.

Fixpoint lower (s : string) : string :=
  match s with
  | EmptyString => EmptyString
  | String c s' => String (lower_char c) (lower s')
  end.

(** [s.endswith(suffix)] *)
Definition endswith (suffix s : string) : bool :=
  let n := String.length s in
  let m := String.length suffix in
  Nat.leb m n && String.eqb (String.substring (n - m) m s) suffix.

End StrMethods.

Module Script.

(** What [st.file_uploader] returns once a file was chosen. *)
Record UploadedFile : Type := mkUploadedFile {
  name : string;
  payload : string
}.

(** [pd.read_csv] or [pd.read_excel] on the uploaded bytes: a frame, or the
    message of the exception raised. *)
Definition Reader : Type := string -> DataFrame + string.

(** The collaborators of a run. *)
Record World : Type := mkWorld {
  read_csv : Reader;
  read_excel : Reader;
  client : App.CompletionClient
}.

(** What a run reads: the environment variable, the state of the upload
    widget, of the text input and of the two buttons. *)
Record Inputs : Type := mkInputs {
  GROQ_API_KEY : option string;
  uploaded : option UploadedFile;
  user_question : string;
  ask_btn : bool;
  summary_btn : bool
}.

(** What a run does that is visible outside it, in order. *)
Inductive Output : Type :=
| set_page_config (page_title layout : string)
| title (text : string)
| error (text : string)
| info (text : string)
| stop
| file_uploader (label : string) (types : list string)
| success (text : string)
| write_frame (df : DataFrame)
| markdown (text : string)
| subheader (text : string)
| text_input (label : string)
| columns_layout
| button (label : string)
| caption (text : string)
| action (e : App.Event)
| uncaught (e : Exn).

(** [if not GROQ_API_KEY]: the variable is unset or empty. *)
Definition key_missing (key : option string) : bool :=
  match key with
  | Some k => negb (App.truthy k)
  | None => true
  end.

Definition key_hint : string :=
  "Please set the variable in your terminal before running the app:"
  ++ Text.LF ++ Text.LF ++ "`$env:GROQ_API_KEY="
  ++ String Text.dquote_char "YOUR_SECRET_KEY"
  ++ String Text.dquote_char "`".

(** The [try] block: the reader is chosen by the extension of the name. *)
Definition read_uploaded (w : World) (f : UploadedFile) : DataFrame + string :=
  if StrMethods.endswith ".csv" (StrMethods.lower (name f))
  then read_csv w (payload f)
  else read_excel w (payload f).

(** Section 4 of the script once the file was read.  [clean_dataframe] is
    called outside any [try]; on a frame of the model (string labels) it
    raises nothing, and the one call that can raise here is
    [local_basic_stats_text]. *)
Definition main_logic (w : World) (i : Inputs) (df : DataFrame) : list Output :=
  let df := clean_dataframe df in
  success "File uploaded successfully! You can now ask questions."
  :: write_frame (head 5 df)
  :: (let snapshot_text := build_dataset_snapshot df 10 in
      match local_basic_stats_text df 5 with
      | Raise e => [uncaught e]
      | Ok local_stats =>
          [markdown "---";
           subheader "🔍 Ask Any Question About the Data";
           text_input "Ask your question… (e.g. Which manufacturer has highest total sales?)";
           columns_layout;
           button "Ask";
           button "Generate Summary"]
          ++ map action
               (App.actions (client w) (ask_btn i) (summary_btn i)
                            snapshot_text local_stats (user_question i))
      end)%list.

Definition run (w : World) (i : Inputs) : list Output :=
  (set_page_config "AI Data Q&A" "wide"
   :: title "☁️ AI Data Question Answering Dashboard (Groq API)"
   :: (if key_missing (GROQ_API_KEY i)
       then [error "❌ GROQ_API_KEY environment variable not found.";
             info key_hint;
             stop]
       else
         file_uploader "Upload CSV or Excel file" ["csv"; "xlsx"]
         :: match uploaded i with
            | Some f =>
                match read_uploaded w f with
                | inr e => [error ("Error reading file: " ++ e); stop]
                | inl df => main_logic w i df
                end
            | None =>
                [info "Upload a CSV or Excel file to begin.";
                 caption "This app uses the blazing-fast Groq API for computation."]
            end))%list.

(** The requests a run sends to the completion service. *)
Definition requests (out : list Output) : list App.Request :=
  flat_map (fun o => match o with
                     | action (App.create req) => [req]
                     | _ => []
                     end) out.

End Script.

(** *** Notions for the further properties *)

(** A line with its blanks removed when it holds nothing else, as
    [textwrap.dedent] normalises it. *)
Definition blank_to_empty (l : string) : string :=
  if blank_line l then EmptyString else l.

(** A frame of typed columns under a duplicated header, and a frame whose
    labels all look like export artefacts. *)
Definition typed_table : DataFrame :=
  mkDataFrame 2 [("id", S_Int64 [Some 1; None]);
                 ("name", S_string [Some "ann"; None]);
                 ("ok", S_boolean [Some true; Some false]);
                 ("w", S_Float64 [None; Some (Float64.of_Z 2)])].

Definition artefact_table : DataFrame :=
  mkDataFrame 2 [("Unnamed: 0", S_int64 [0; 1]);
                 ("Unnamed: 1", S_object [PyStr "a"; PyNone])].

Definition repeated_table : DataFrame :=
  mkDataFrame 1 [("a", S_Int64 [Some 1]); ("b", S_string [Some "x"]);
                 ("a", S_Int64 [Some 2])].

(** A run in which "Sales.CSV" was uploaded and "Ask" pressed: the CSV
    reader returns the sales table and the service answers. *)
Definition csv_world : Script.World :=
  Script.mkWorld (fun _ => inl sales_table)
                 (fun _ => inr "File is not a zip file")
                 (fun _ => inl "Acme").




(* ------------------------------------------------------------------ *)
(** ** Properties of [clean_dataframe] *)

Lemma nodupb_sound (xs : list string) : nodupb xs = true -> NoDup xs.
Proof.
  induction xs as [|x xs IH]; simpl; intros H.
  - constructor.
  - apply andb_true_iff in H. destruct H as [Hx Hxs].
    constructor; [|auto].
    intros Hin. apply negb_true_iff in Hx.
    assert (existsb (String.eqb x) xs = true) as E.
    { apply existsb_exists. exists x. split; [assumption|apply String.eqb_refl]. }
    congruence.
Qed.

Lemma existsb_eqb_In (x : string) (xs : list string) :
  existsb (String.eqb x) xs = true <-> In x xs.
Proof.
  rewrite existsb_exists. split.
  - intros [y [Hy E]]. apply String.eqb_eq in E. subst. assumption.
  - intros H. exists x. split; [assumption|apply String.eqb_refl].
Qed.

Lemma values_astype_str (s : Series) :
  values (astype_str s) = map (fun o => PyStr (str_obj o)) (values s).
Proof. reflexivity. Qed.

Lemma astype_str_idem (s : Series) : astype_str (astype_str s) = astype_str s.
Proof.
  unfold astype_str. simpl. rewrite map_map. reflexivity.
Qed.

Lemma retag_assign (l : string) (ls : list string) (c : string * Series) :
  retag ls (if String.eqb (fst c) l then (fst c, astype_str (snd c)) else c)
  = retag (l :: ls) c.
Proof.
  unfold retag. simpl. destruct (String.eqb (fst c) l); simpl.
  - destruct (existsb (String.eqb (fst c)) ls);
      [rewrite astype_str_idem|]; reflexivity.
  - reflexivity.
Qed.

Lemma fold_assign (labels : list string) (df : DataFrame) :
  fold_left (fun df col => assign_map col astype_str df) labels df
  = mkDataFrame (nrows df) (map (retag labels) (data df)).
Proof.
  revert df. induction labels as [|l ls IH]; intros df; simpl.
  - destruct df as [n cs]. simpl. f_equal.
    rewrite <- (map_id cs) at 1. apply map_ext. intros c. reflexivity.
  - rewrite IH. simpl. f_equal. rewrite map_map.
    apply map_ext. intros c. apply retag_assign.
Qed.

(** [clean_dataframe], column by column. *)
Lemma clean_dataframe_data (df : DataFrame) :
  clean_dataframe df
  = mkDataFrame (nrows df)
      (map (fun c => retag (object_labels (data df)) (converted c))
           (filter kept (data df))).
Proof.
  unfold clean_dataframe. rewrite fold_assign. simpl.
  rewrite map_map. reflexivity.
Qed.

Lemma fst_retag (labels : list string) (c : string * Series) :
  fst (retag labels c) = fst c.
Proof. unfold retag. destruct (existsb _ labels); reflexivity. Qed.

Lemma map_fst_filter {A B : Type} (p : A -> bool) (l : list (A * B)) :
  map fst (filter (fun c => p (fst c)) l) = filter p (map fst l).
Proof.
  induction l as [|c l IH]; cbn [map filter]; [reflexivity|].
  destruct (p (fst c)); cbn [map]; rewrite IH; reflexivity.
Qed.

Lemma clean_dataframe_columns (df : DataFrame) :
  columns (clean_dataframe df)
  = filter (fun c => negb (Text.startswith "Unnamed" c)) (columns df).
Proof.
  rewrite clean_dataframe_data. unfold columns. cbn [data].
  rewrite map_map.
  rewrite (map_ext _ fst) by (intros c; rewrite fst_retag; reflexivity).
  apply (map_fst_filter (fun c => negb (Text.startswith "Unnamed" c))).
Qed.

Lemma clean_dataframe_nrows (df : DataFrame) :
  nrows (clean_dataframe df) = nrows df.
Proof. rewrite clean_dataframe_data. reflexivity. Qed.

(** Case analysis on every condition the goal branches on. *)
Ltac case_conditions :=
  repeat match goal with
         | |- context [if ?b then _ else _] => destruct b
         end.

(** [convert_dtypes] never leaves a numpy number or bool column. *)
Lemma convert_dtypes_series_dtype (s : Series) :
  nullable (convert_dtypes_series s) = true
  \/ dtype (convert_dtypes_series s) = D_object.
Proof.
  unfold convert_dtypes_series, infer_objects.
  destruct s as [v|v|v|v|v|v|v|v]; try (left; reflexivity).
  - destruct (forallb _ _); left; reflexivity.
  - cbv beta zeta delta [maybe_convert_objects].
    case_conditions;
      try (left; reflexivity);
      destruct (infer_dtype v); (left; reflexivity) || (right; reflexivity).
Qed.

Lemma convert_dtypes_series_nullable (s : Series) :
  nullable s = true -> convert_dtypes_series s = s.
Proof. destruct s; simpl; intros H; try discriminate H; reflexivity. Qed.

Lemma nullable_not_object (s : Series) :
  nullable s = true -> dtype s <> D_object.
Proof. destruct s; simpl; intros H; try discriminate H; discriminate. Qed.

Lemma is_object_dtype (c : string * Series) :
  is_object c = true <-> dtype (snd c) = D_object.
Proof.
  unfold is_object. simpl. rewrite orb_false_r.
  destruct (dtype (snd c)); simpl; split; intros H;
    try reflexivity; discriminate H.
Qed.

Lemma forallb_str_map (l : list string) :
  forallb (fun o => is_str o || isna o) (map PyStr l) = true.
Proof. induction l; simpl; auto. Qed.

Lemma values_of_strings (l : list string) :
  map (box PyStr) (map obj_to_string (map PyStr l)) = map PyStr l.
Proof. rewrite !map_map. apply map_ext. reflexivity. Qed.

(** A column of strings is re-tagged as [string] (or, when empty, left as
    it is): its cells and its kind stay. *)
Lemma convert_dtypes_series_strings (l : list string) :
  values (convert_dtypes_series (S_object (map PyStr l))) = map PyStr l
  /\ kind (dtype (convert_dtypes_series (S_object (map PyStr l)))) = Text.
Proof.
  destruct l as [|x l]; [split; reflexivity|].
  remember (map PyStr (x :: l)) as v eqn:Ev.
  assert (existsb is_NA v || existsb is_str v = true) as E1
      by (subst v; simpl; rewrite orb_true_r; reflexivity).
  assert (find (fun o => negb (isna o)) v = Some (PyStr x)) as E2
      by (subst v; reflexivity).
  assert (forallb (fun o => is_str o || isna o) v = true) as E3
      by (subst v; apply forallb_str_map).
  unfold convert_dtypes_series, infer_objects.
  cbv beta zeta delta [maybe_convert_objects]. rewrite E1.
  unfold infer_dtype. rewrite E2, E3.
  cbn [values dtype kind]. split; [|reflexivity].
  subst v. apply (values_of_strings (x :: l)).
Qed.

Lemma str_obj_strings (l : list string) :
  map (fun o => PyStr (str_obj o)) (map PyStr l) = map PyStr l.
Proof. rewrite map_map. apply map_ext. reflexivity. Qed.

Lemma filter_all {A : Type} (p : A -> bool) (l : list A) :
  (forall x, In x l -> p x = true) -> filter p l = l.
Proof.
  induction l as [|x l IH]; intros H; cbn [filter]; [reflexivity|].
  rewrite (H x (or_introl eq_refl)). f_equal. apply IH.
  intros y Hy. apply H. right. assumption.
Qed.

Lemma Forall2_map_In {A B : Type} (R : A -> B -> Prop) (g : A -> B) (l : list A) :
  (forall x, In x l -> R x (g x)) -> Forall2 R l (map g l).
Proof.
  induction l as [|x l IH]; intros H; cbn [map]; constructor.
  - apply H. left. reflexivity.
  - apply IH. intros y Hy. apply H. right. exact Hy.
Qed.

Lemma clean_dataframe_In (df : DataFrame) (c : string * Series) :
  In c (data (clean_dataframe df)) ->
  exists c0, In c0 (data df) /\ kept c0 = true
             /\ c = retag (object_labels (data df)) (converted c0).
Proof.
  rewrite clean_dataframe_data. cbn [data]. intros H.
  apply in_map_iff in H. destruct H as [c0 [E H]].
  apply filter_In in H. destruct H as [Hin Hk].
  exists c0. auto.
Qed.

Lemma clean_dataframe_kept (df : DataFrame) :
  filter kept (data (clean_dataframe df)) = data (clean_dataframe df).
Proof.
  apply filter_all. intros c H.
  apply clean_dataframe_In in H. destruct H as [c0 [_ [Hk E]]].
  subst c. unfold kept in *. rewrite fst_retag. exact Hk.
Qed.

Lemma object_label_In (cs : list (string * Series)) (c0 : string * Series) :
  In c0 cs -> kept c0 = true -> is_object (converted c0) = true ->
  existsb (String.eqb (fst (converted c0))) (object_labels cs) = true.
Proof.
  intros Hin Hk Ho. apply existsb_eqb_In. unfold object_labels.
  apply in_map_iff. exists (converted c0). split; [reflexivity|].
  apply filter_In. split; [|assumption].
  apply in_map. apply filter_In. auto.
Qed.

Lemma fst_converted (c : string * Series) : fst (converted c) = fst c.
Proof. reflexivity. Qed.

(** A label that carries an object column after a second conversion
    carried one after the first. *)
Lemma object_labels_shrink (df : DataFrame) (n : string) :
  existsb (String.eqb n) (object_labels (data (clean_dataframe df))) = true ->
  existsb (String.eqb n) (object_labels (data df)) = true.
Proof.
  intros H.
  destruct (existsb (String.eqb n) (object_labels (data df))) eqn:HL;
    [reflexivity|exfalso].
  apply existsb_eqb_In in H. unfold object_labels in H.
  apply in_map_iff in H. destruct H as [c' [Ef Hc']].
  apply filter_In in Hc'. destruct Hc' as [Hc' Ho'].
  apply in_map_iff in Hc'. destruct Hc' as [c1 [Ec' Hc1]].
  apply filter_In in Hc1. destruct Hc1 as [Hc1 _].
  destruct (clean_dataframe_In _ _ Hc1) as [c0 [Hin0 [Hk0 E]]].
  assert (fst c0 = n) as Elab.
  { rewrite <- Ef, <- Ec', fst_converted, E, fst_retag, fst_converted.
    reflexivity. }
  unfold retag in E. rewrite fst_converted, Elab, HL in E. subst c1 c'.
  destruct (convert_dtypes_series_dtype (snd c0)) as [Hn|Hob].
  - apply is_object_dtype in Ho'.
    change (snd (converted (converted c0)))
      with (convert_dtypes_series (convert_dtypes_series (snd c0))) in Ho'.
    rewrite (convert_dtypes_series_nullable _ Hn) in Ho'.
    exact (nullable_not_object _ Hn Ho').
  - assert (is_object (converted c0) = true) as Hob'
        by (apply is_object_dtype; exact Hob).
    pose proof (object_label_In _ _ Hin0 Hk0 Hob') as HL0.
    rewrite fst_converted, Elab, HL in HL0. discriminate HL0.
Qed.

(** A column converted to a nullable dtype, under a label that carries no
    object column, is left alone by a further application. *)
Lemma nullable_column_stays (df : DataFrame) (c0 : string * Series) :
  In c0 (data df) -> kept c0 = true ->
  existsb (String.eqb (fst c0)) (object_labels (data df)) = false ->
  retag (object_labels (data (clean_dataframe df))) (converted (converted c0))
  = converted c0.
Proof.
  intros Hin0 Hk0 HL.
  assert (nullable (snd (converted c0)) = true) as Hn.
  { destruct (convert_dtypes_series_dtype (snd c0)) as [Hn|Ho]; [exact Hn|].
    assert (is_object (converted c0) = true) as Ho'
        by (apply is_object_dtype; exact Ho).
    pose proof (object_label_In _ _ Hin0 Hk0 Ho') as HL0.
    rewrite fst_converted, HL in HL0. discriminate HL0. }
  assert (converted (converted c0) = converted c0) as Hfix.
  { unfold converted at 1. cbn [fst snd] in *.
    rewrite (convert_dtypes_series_nullable _ Hn). reflexivity. }
  rewrite Hfix. unfold retag. rewrite fst_converted.
  destruct (existsb (String.eqb (fst c0))
                    (object_labels (data (clean_dataframe df)))) eqn:HL';
    [|reflexivity].
  rewrite (object_labels_shrink df _ HL') in HL. discriminate HL.
Qed.

(** What a second application does to one column of a cleaned frame. *)
Lemma second_pass_column (df : DataFrame) (c1 : string * Series) :
  In c1 (data (clean_dataframe df)) ->
  view_column (retag (object_labels (data (clean_dataframe df))) (converted c1))
  = view_column c1.
Proof.
  intros H1. destruct (clean_dataframe_In _ _ H1) as [c0 [Hin0 [Hk0 E]]].
  set (L' := object_labels (data (clean_dataframe df))).
  unfold retag in E.
  destruct (existsb (String.eqb (fst (converted c0))) (object_labels (data df)))
    eqn:HL.
  - (* force-coerced in the first pass: a column of strings *)
    subst c1. unfold astype_str. rewrite <- map_map.
    set (strs := map str_obj (values (snd (converted c0)))).
    destruct (convert_dtypes_series_strings strs) as [Hv Hkind].
    set (n := fst (converted c0)).
    change (converted (n, S_object (map PyStr strs)))
      with (n, convert_dtypes_series (S_object (map PyStr strs))).
    unfold retag. cbn [fst snd].
    destruct (existsb _ L'); unfold view_column; cbn [fst snd].
    + rewrite values_astype_str, Hv, str_obj_strings. reflexivity.
    + rewrite Hv, Hkind. reflexivity.
  - (* converted to a nullable dtype in the first pass *)
    subst c1. rewrite fst_converted in HL. unfold L'.
    rewrite (nullable_column_stays df c0 Hin0 Hk0 HL). reflexivity.
Qed.

Lemma uniform_astype_str (s : Series) : uniform_column (astype_str s) = true.
Proof.
  unfold astype_str. simpl. apply forallb_forall. intros o Ho.
  apply in_map_iff in Ho. destruct Ho as [x [E _]]. subst o. reflexivity.
Qed.

Lemma nullable_uniform (s : Series) :
  nullable s = true -> uniform_column s = true.
Proof. destruct s; simpl; intros H; try discriminate H; reflexivity. Qed.

Lemma clean_dataframe_uniform (df : DataFrame) (c : string * Series) :
  In c (data (clean_dataframe df)) -> uniform_column (snd c) = true.
Proof.
  intros H. destruct (clean_dataframe_In _ _ H) as [c0 [Hin [Hk E]]].
  subst c. unfold retag.
  destruct (existsb _ _) eqn:HL; cbn [snd].
  - apply uniform_astype_str.
  - destruct (convert_dtypes_series_dtype (snd c0)) as [Hn|Ho].
    + apply nullable_uniform. exact Hn.
    + assert (is_object (converted c0) = true) as Ho'
          by (apply is_object_dtype; exact Ho).
      rewrite (object_label_In _ _ Hin Hk Ho') in HL. discriminate HL.
Qed.






(** The column of the specification's example, [[1, "a", None]], comes out
    as the strings "1", "a", "None"; a float NaN and [pd.NA] in such a
    column come out as "nan" and "<NA>". *)
Lemma clean_dataframe_mixed_column :
  clean_dataframe mixed_table
  = mkDataFrame 3 [("x", S_object [PyStr "1"; PyStr "a"; PyStr "None"])]
  /\ clean_dataframe mixed_missing_table
     = mkDataFrame 5 [("x", S_object [PyStr "1"; PyStr "a"; PyStr "None";
                                      PyStr "nan"; PyStr "<NA>"])].
Proof. split; reflexivity. Qed.

(** C2: on a table with the columns "Unnamed: 0", "Unnamed" and "Sales",
    [clean_dataframe] drops "Unnamed: 0" and also "Unnamed": the pattern
    [^Unnamed] matches every label that begins with "Unnamed". *)
Theorem clean_dataframe_drops_plain_Unnamed :
  columns unnamed_table = ["Unnamed: 0"; "Unnamed"; "Sales"]
  /\ columns (clean_dataframe unnamed_table) = ["Sales"].
Proof. split; reflexivity. Qed.

(** The pandas dtype of a force-coerced column is not stable: the first
    application leaves an object column of strings, the second re-tags it as
    [string].  Label, kind and cells are the same. *)
Lemma clean_dataframe_twice_differs :
  clean_dataframe mixed_table
  = mkDataFrame 3 [("x", S_object [PyStr "1"; PyStr "a"; PyStr "None"])]
  /\ clean_dataframe (clean_dataframe mixed_table)
     = mkDataFrame 3 [("x", S_string [Some "1"; Some "a"; Some "None"])]
  /\ clean_dataframe (clean_dataframe mixed_table) <> clean_dataframe mixed_table.
Proof.
  split; [reflexivity|]. split; [reflexivity|].
  intros H. discriminate H.
Qed.

(** C3: for every input table, applying [clean_dataframe] to its own output
    yields the same table as a single application: the same row count, the
    same column labels in the same order, and for every column the same kind
    (Integer, Float, Text, Boolean) and the same cells. *)
Theorem clean_dataframe_idempotent_view (df : DataFrame) :
  table_view (clean_dataframe (clean_dataframe df))
  = table_view (clean_dataframe df).
Proof.
  unfold table_view. rewrite clean_dataframe_nrows. f_equal.
  rewrite (clean_dataframe_data (clean_dataframe df)). cbn [data].
  rewrite clean_dataframe_kept. rewrite map_map.
  apply map_ext_in. intros c1 H1. apply second_pass_column. exact H1.
Qed.

(** A non-empty column of strings is re-tagged as [string]. *)
Lemma convert_dtypes_series_strings_cons (x : string) (l : list string) :
  convert_dtypes_series (S_object (map PyStr (x :: l)))
  = S_string (map Some (x :: l)).
Proof.
  remember (map PyStr (x :: l)) as v eqn:Ev.
  assert (existsb is_NA v || existsb is_str v = true) as E1
      by (subst v; simpl; rewrite orb_true_r; reflexivity).
  assert (find (fun o => negb (isna o)) v = Some (PyStr x)) as E2
      by (subst v; reflexivity).
  assert (forallb (fun o => is_str o || isna o) v = true) as E3
      by (subst v; apply forallb_str_map).
  unfold convert_dtypes_series, infer_objects.
  cbv beta zeta delta [maybe_convert_objects]. rewrite E1.
  unfold infer_dtype. rewrite E2, E3. subst v.
  rewrite map_map. reflexivity.
Qed.

Lemma strings_only (v : list PyObj) :
  forallb is_str v = true -> exists l, v = map PyStr l.
Proof.
  induction v as [|o v IH]; simpl; intros H.
  - exists []. reflexivity.
  - apply andb_true_iff in H. destruct H as [Ho Hv].
    destruct (IH Hv) as [l E]. destruct o; try discriminate Ho.
    exists (s :: l). simpl. rewrite E. reflexivity.
Qed.

(** In a cleaned frame only an empty column of strings still converts to
    an object column. *)
Lemma uniform_still_object (s : Series) :
  uniform_column s = true -> dtype (convert_dtypes_series s) = D_object ->
  s = S_object [].
Proof.
  intros Hu Ho. destruct s as [v|v|v|v|v|v|v|v]; try discriminate Hu;
    try discriminate Ho.
  simpl in Hu. destruct (strings_only v Hu) as [l E]. subst v.
  destruct l as [|x l]; [reflexivity|].
  rewrite convert_dtypes_series_strings_cons in Ho. discriminate Ho.
Qed.

Lemma astype_str_strings (l : list string) :
  astype_str (convert_dtypes_series (S_object (map PyStr l)))
  = S_object (map PyStr l).
Proof.
  unfold astype_str.
  destruct (convert_dtypes_series_strings l) as [Hv _]. rewrite Hv.
  rewrite str_obj_strings. reflexivity.
Qed.

(** The output of a second application is a fixed point: a third
    application returns it unchanged, dtypes included. *)
Lemma clean_dataframe_fixed_after_two (df : DataFrame) :
  clean_dataframe (clean_dataframe (clean_dataframe df))
  = clean_dataframe (clean_dataframe df).
Proof.
  set (A := clean_dataframe df).
  rewrite (clean_dataframe_data (clean_dataframe A)).
  rewrite clean_dataframe_kept.
  set (LB := object_labels (data (clean_dataframe A))).
  assert (forall c, In c (data (clean_dataframe A)) ->
                    retag LB (converted c) = c) as Hfix.
  { intros c Hc.
    destruct (clean_dataframe_In _ _ Hc) as [c1 [Hin1 [Hk1 E]]].
    unfold retag in E. rewrite fst_converted in E.
    destruct (existsb (String.eqb (fst c1)) (object_labels (data A))) eqn:HLA.
    - (* the label carries a column that is still object in [A] *)
      assert (exists l, astype_str (snd (converted c1)) = S_object (map PyStr l))
        as [l El] by (eexists; unfold astype_str; rewrite <- map_map; reflexivity).
      rewrite El in E. subst c.
      assert (existsb (String.eqb (fst c1)) LB = true) as HLB.
      { apply existsb_eqb_In in HLA. unfold object_labels in HLA.
        apply in_map_iff in HLA. destruct HLA as [c' [Ef Hc']].
        apply filter_In in Hc'. destruct Hc' as [Hc' Ho'].
        apply in_map_iff in Hc'. destruct Hc' as [c1' [Ec' Hc1']].
        apply filter_In in Hc1'. destruct Hc1' as [Hc1' Hk1'].
        subst c'. rewrite fst_converted in Ef.
        pose proof (clean_dataframe_uniform df c1' Hc1') as Hu.
        apply is_object_dtype in Ho'.
        pose proof (uniform_still_object _ Hu Ho') as Es.
        assert (In (fst c1', S_object []) (data (clean_dataframe A))) as HinB.
        { rewrite clean_dataframe_data. cbn [data]. apply in_map_iff.
          exists c1'. split.
          - unfold retag. rewrite fst_converted.
            assert (existsb (String.eqb (fst c1')) (object_labels (data A)) = true)
              as HL1.
            { rewrite <- (fst_converted c1'). apply object_label_In; auto.
              apply is_object_dtype. exact Ho'. }
            rewrite HL1. unfold converted. cbn [snd]. rewrite Es. reflexivity.
          - apply filter_In. auto. }
        rewrite <- Ef.
        change (existsb (String.eqb (fst (converted (fst c1', S_object [])))) LB
                = true).
        apply object_label_In.
        - exact HinB.
        - unfold kept in *. exact Hk1'.
        - reflexivity. }
      unfold retag. rewrite fst_converted. cbn [fst]. rewrite HLB.
      unfold converted. cbn [fst snd]. rewrite astype_str_strings. reflexivity.
    - (* every column under the label has a nullable dtype in [A] *)
      subst c. unfold LB.
      apply (nullable_column_stays A c1 Hin1 Hk1 HLA). }
  rewrite (map_ext_in _ (fun c => c) _ Hfix), map_id.
  destruct (clean_dataframe A) as [n cs]. reflexivity.
Qed.

Lemma filter_length_le {A : Type} (p : A -> bool) (l : list A) :
  (List.length (filter p l) <= List.length l)%nat.
Proof.
  induction l as [|x l IH]; cbn [filter]; [constructor|].
  destruct (p x); simpl; lia.
Qed.

Lemma NoDup_filter {A : Type} (p : A -> bool) (l : list A) :
  NoDup l -> NoDup (filter p l).
Proof.
  induction 1 as [|x l Hx Hl IH]; cbn [filter]; [constructor|].
  destruct (p x); [|exact IH].
  constructor; [|exact IH].
  intros H. apply filter_In in H. destruct H. contradiction.
Qed.

Lemma size_convert_dtypes_series (s : Series) :
  size (convert_dtypes_series s) = size s.
Proof.
  unfold convert_dtypes_series, infer_objects, size.
  destruct s as [v|v|v|v|v|v|v|v]; try reflexivity.
  - cbn [values]. rewrite !length_map. reflexivity.
  - destruct (forallb _ _); cbn [values]; rewrite !length_map; reflexivity.
  - cbn [values]. rewrite !length_map. reflexivity.
  - cbv beta zeta delta [maybe_convert_objects].
    case_conditions;
      try destruct (infer_dtype v);
      cbn [values]; rewrite ?length_map; reflexivity.
Qed.

Lemma size_astype_str (s : Series) : size (astype_str s) = size s.
Proof. unfold size. rewrite values_astype_str. apply length_map. Qed.

(** Every column keeps its number of cells. *)
Lemma clean_dataframe_well_formed (df : DataFrame) :
  well_formed df -> well_formed (clean_dataframe df).
Proof.
  unfold well_formed. rewrite !Forall_forall. intros H c Hc.
  rewrite clean_dataframe_nrows.
  destruct (clean_dataframe_In _ _ Hc) as [c0 [Hin [_ E]]].
  rewrite <- (H c0 Hin). subst c. unfold retag.
  destruct (existsb _ _); cbn [snd].
  - rewrite size_astype_str. apply size_convert_dtypes_series.
  - apply size_convert_dtypes_series.
Qed.

(** C9: for a table whose column labels are distinct, the output of
    [clean_dataframe] has at most as many columns as the input, the same
    number of rows, and distinct column labels. *)
Theorem clean_dataframe_shape (df : DataFrame) :
  NoDup (columns df) ->
  (snd (shape (clean_dataframe df)) <= snd (shape df))
  /\ fst (shape (clean_dataframe df)) = fst (shape df)
  /\ NoDup (columns (clean_dataframe df)).
Proof.
  intros Hnd. unfold shape. cbn [fst snd].
  rewrite clean_dataframe_nrows.
  replace (List.length (data (clean_dataframe df)))
    with (List.length (columns (clean_dataframe df)))
    by (unfold columns; apply length_map).
  replace (List.length (data df)) with (List.length (columns df))
    by (unfold columns; apply length_map).
  rewrite clean_dataframe_columns.
  split; [|split].
  - apply Nat2Z.inj_le. apply filter_length_le.
  - reflexivity.
  - apply NoDup_filter. exact Hnd.
Qed.

(** The sales table has distinct labels; cleaning it drops one column of
    three and keeps the three rows. *)
Lemma clean_dataframe_shape_witness :
  NoDup (columns sales_table)
  /\ (snd (shape (clean_dataframe sales_table)) <= snd (shape sales_table))
  /\ fst (shape (clean_dataframe sales_table)) = fst (shape sales_table)
  /\ NoDup (columns (clean_dataframe sales_table)).
Proof.
  assert (NoDup (columns sales_table)) as H
      by (apply nodupb_sound; reflexivity).
  split; [exact H|].
  apply (clean_dataframe_shape sales_table). exact H.
Defined.

(* ------------------------------------------------------------------ *)
(** ** Properties of [local_basic_stats_text] *)

Lemma filter_label_absent (n : string) (l : list (string * Series)) :
  ~ In n (map fst l) -> filter (fun c => String.eqb (fst c) n) l = [].
Proof.
  induction l as [|x l IH]; cbn [filter map]; intros H; [reflexivity|].
  destruct (String.eqb (fst x) n) eqn:E.
  - apply String.eqb_eq in E. exfalso. apply H. left. exact E.
  - apply IH. intros Hin. apply H. right. exact Hin.
Qed.

(** A label that occurs once selects its column alone. *)
Lemma filter_label_unique (c : string * Series) (l : list (string * Series)) :
  NoDup (map fst l) -> In c l ->
  filter (fun x => String.eqb (fst x) (fst c)) l = [c].
Proof.
  induction l as [|x l IH]; cbn [filter map]; intros Hnd Hin; [destruct Hin|].
  inversion Hnd as [|a b Hx Hl]; subst.
  destruct Hin as [E|Hin].
  - subst x. rewrite String.eqb_refl. f_equal.
    apply filter_label_absent. exact Hx.
  - destruct (String.eqb (fst x) (fst c)) eqn:E.
    + apply String.eqb_eq in E. exfalso. apply Hx. rewrite E.
      apply in_map. exact Hin.
    + apply IH; assumption.
Qed.

Lemma stats_entry_unique (nums : DataFrame) (c : string * Series) :
  NoDup (columns nums) -> In c (data nums) ->
  stats_entry nums (Stats.describe_transpose nums) (fst c) = Ok (column_line c).
Proof.
  intros Hnd Hin. unfold stats_entry, Stats.describe_transpose.
  rewrite filter_map_swap. cbn [fst].
  rewrite (filter_label_unique c (data nums) Hnd Hin).
  destruct c as [n s]. reflexivity.
Qed.

Lemma for_each_map {A B C : Type} (f : B -> Result C) (g : A -> C)
  (h : A -> B) (xs : list A) :
  (forall x, In x xs -> f (h x) = Ok (g x)) ->
  for_each f (map h xs) = Ok (map g xs).
Proof.
  induction xs as [|x xs IH]; intros H; cbn [map for_each]; [reflexivity|].
  rewrite (H x (or_introl eq_refl)). cbn [bind].
  rewrite IH by (intros y Hy; apply H; right; exact Hy).
  reflexivity.
Qed.

Lemma slice_to_map {A B : Type} (f : A -> B) (n : Z) (xs : list A) :
  slice_to n (map f xs) = map f (slice_to n xs).
Proof.
  unfold slice_to. rewrite length_map.
  destruct (n <? 0); apply firstn_map.
Qed.

Lemma firstn_In {A : Type} (k : nat) (xs : list A) (x : A) :
  In x (firstn k xs) -> In x xs.
Proof.
  intros H. rewrite <- (firstn_skipn k xs). apply in_or_app. left. exact H.
Qed.

Lemma slice_to_In {A : Type} (n : Z) (xs : list A) (x : A) :
  In x (slice_to n xs) -> In x xs.
Proof. unfold slice_to. destruct (n <? 0); apply firstn_In. Qed.

Lemma NoDup_map_fst_filter {A B : Type} (p : A * B -> bool) (l : list (A * B)) :
  NoDup (map fst l) -> NoDup (map fst (filter p l)).
Proof.
  induction l as [|x l IH]; cbn [map filter]; intros H; [constructor|].
  inversion H as [|a b Hx Hl]; subst.
  destruct (p x); cbn [map]; [|auto].
  constructor; [|auto].
  intros Hin. apply Hx. apply in_map_iff in Hin.
  destruct Hin as [y [E Hy]]. apply filter_In in Hy.
  rewrite <- E. apply in_map. tauto.
Qed.

(** The numeric labels of a cleaned table are distinct when the labels of
    the table it was cleaned from are. *)
Lemma cleaned_numeric_labels_distinct (df : DataFrame) :
  NoDup (columns df) ->
  NoDup (columns (select_dtypes numeric_dtypes (clean_dataframe df))).
Proof.
  intros H. unfold columns, select_dtypes. cbn [data].
  apply NoDup_map_fst_filter.
  change (NoDup (columns (clean_dataframe df))).
  rewrite clean_dataframe_columns. apply NoDup_filter. exact H.
Qed.

(** The report when the numeric labels are distinct: one line per column
    of the slice, then the line on the columns left out. *)
Lemma local_basic_stats_text_unique (df : DataFrame) (numeric_limit : Z) :
  NoDup (columns (select_dtypes numeric_dtypes df)) ->
  data (select_dtypes numeric_dtypes df) <> [] ->
  local_basic_stats_text df numeric_limit
  = Ok (Text.join Text.LF
          (map column_line (slice_to numeric_limit (data (select_dtypes numeric_dtypes df)))
           ++ (if numeric_limit <? snd (shape (select_dtypes numeric_dtypes df))
               then [more_line (snd (shape (select_dtypes numeric_dtypes df)) - numeric_limit)]
               else []))%list).
Proof.
  intros Hnd Hne. unfold local_basic_stats_text.
  set (nums := select_dtypes numeric_dtypes df) in *.
  destruct (snd (shape nums) =? 0) eqn:E0.
  { apply Z.eqb_eq in E0. unfold shape in E0. cbn [snd] in E0.
    destruct (data nums); [contradiction|discriminate E0]. }
  replace (map fst (Stats.describe_transpose nums)) with (map fst (data nums))
    by (unfold Stats.describe_transpose; rewrite map_map; reflexivity).
  rewrite slice_to_map.
  rewrite (for_each_map _ column_line fst).
  - cbn [bind]. destruct (numeric_limit <? snd (shape nums));
      [reflexivity|rewrite app_nil_r; reflexivity].
  - intros c Hc. apply stats_entry_unique; [exact Hnd|].
    apply (slice_to_In numeric_limit). exact Hc.
Qed.




(** Twelve numeric columns and [numeric_limit=5]: five per-column lines
    and the line "...and 7 more numeric columns.". *)
Lemma twelve_numeric_report :
  local_basic_stats_text twelve_numeric 5
  = Ok (Text.join Text.LF
          ["- n1: mean=2.000, median=2.000, std=1.414, min=1.000, max=3.000, n=2";
           "- n2: mean=4.000, median=4.000, std=2.828, min=2.000, max=6.000, n=2";
           "- n3: mean=6.000, median=6.000, std=4.243, min=3.000, max=9.000, n=2";
           "- n4: mean=8.000, median=8.000, std=5.657, min=4.000, max=12.000, n=2";
           "- n5: mean=10.000, median=10.000, std=7.071, min=5.000, max=15.000, n=2";
           "...and 7 more numeric columns."]).
Proof. vm_compute. reflexivity. Qed.

(** A negative [numeric_limit] is a slice from the end: the report then
    drops the last columns and over-counts the columns left out. *)
Lemma negative_limit_report :
  local_basic_stats_text (clean_dataframe sales_table) (-1)
  = Ok "...and 2 more numeric columns.".
Proof. vm_compute. reflexivity. Qed.

(** Labels that repeat among the numeric columns make the f-string raise:
    [desc.loc[col, 'mean']] is then a Series. *)
Lemma repeated_label_raises :
  local_basic_stats_text
    (mkDataFrame 1 [("a", S_Int64 [Some 1]); ("a", S_Int64 [Some 2])]) 5
  = Raise (TypeError "unsupported format string passed to Series.__format__").
Proof. reflexivity. Qed.

(** The end-to-end scenario of the specification. *)
Lemma sales_scenario :
  clean_dataframe sales_table
  = mkDataFrame 3
      [("Manufacturer", S_string [Some "Acme"; Some "Acme"; Some "Globex"]);
       ("Sales", S_Int64 [Some 100; Some 150; Some 200])]
  /\ local_basic_stats_text (clean_dataframe sales_table) 5
     = Ok "- Sales: mean=150.000, median=150.000, std=50.000, min=100.000, max=200.000, n=3".
Proof. split; vm_compute; reflexivity. Qed.

(** C5: a table with no int64, float64, Int64 or Float64 column yields the
    text "No numeric columns detected." and raises nothing. *)
Theorem no_numeric_columns_sentinel (df : DataFrame) (numeric_limit : Z) :
  columns (select_dtypes numeric_dtypes df) = [] ->
  local_basic_stats_text df numeric_limit = Ok "No numeric columns detected.".
Proof.
  intros H. unfold local_basic_stats_text, shape. cbn [snd].
  unfold columns in H. apply map_eq_nil in H. rewrite H. reflexivity.
Qed.

(** A cleaned table of two text columns. *)
Lemma no_numeric_columns_sentinel_witness :
  columns (select_dtypes numeric_dtypes (clean_dataframe text_only_table)) = []
  /\ local_basic_stats_text (clean_dataframe text_only_table) 5
     = Ok "No numeric columns detected.".
Proof.
  split; [reflexivity|].
  apply (no_numeric_columns_sentinel (clean_dataframe text_only_table) 5).
  reflexivity.
Defined.




(** The report of the cleaned one-price table, and of the same column
    before cleaning (numpy float64). *)
Lemma one_price_report :
  local_basic_stats_text (clean_dataframe one_price_table) 5
  = Ok "- price: mean=3.500, median=3.500, std=<NA>, min=3.500, max=3.500, n=1"
  /\ local_basic_stats_text one_price_table 5
     = Ok "- price: mean=3.500, median=3.500, std=nan, min=3.500, max=3.500, n=1".
Proof. split; vm_compute; reflexivity. Qed.

(* ------------------------------------------------------------------ *)
(** ** Properties of [build_dataset_snapshot] *)

(** C10: in the cleaned table of [flags_table] the true/false column
    "active" has the boolean dtype; the snapshot names it among the columns
    and in the header of the sample rows, but in neither the numeric nor the
    categorical/text list. *)
Theorem snapshot_omits_boolean_column :
  map (fun c => (fst c, dtype (snd c))) (data (clean_dataframe flags_table))
  = [("id", D_Int64); ("name", D_string); ("active", D_boolean)]
  /\ columns (select_dtypes numeric_dtypes (clean_dataframe flags_table)) = ["id"]
  /\ columns (select_dtypes text_dtypes (clean_dataframe flags_table)) = ["name"]
  /\ build_dataset_snapshot (clean_dataframe flags_table) 10
     = Text.join Text.LF
         [""; "    Dataset shape: 2 rows x 3 columns";
          "    Columns: ['id', 'name', 'active']";
          "    Numeric columns: ['id']";
          "    Categorical/text columns: ['name']";
          "";
          "    First 2 rows (CSV):";
          "    id,name,active";
          "1,ann,True";
          "2,bob,False";
          "";
          ""].
Proof. repeat split; vm_compute; reflexivity. Qed.

(** No column of boolean (or bool) dtype is ever in either list. *)
Lemma boolean_column_in_neither_list (df : DataFrame) (c : string * Series) :
  kind (dtype (snd c)) = Boolean ->
  ~ In c (data (select_dtypes numeric_dtypes df))
  /\ ~ In c (data (select_dtypes text_dtypes df)).
Proof.
  intros Hk. split; intros H; apply filter_In in H; destruct H as [_ H];
    destruct (dtype (snd c)); try discriminate Hk; discriminate H.
Qed.

(* ------------------------------------------------------------------ *)
(** ** Properties of the "Ask" action *)

(** C6: with an empty question the "Ask" block is skipped whatever the
    button state: no prompt is built, and the run performs no request and
    shows nothing, neither answer nor error. *)
Theorem blank_question_is_noop
  (client : App.CompletionClient) (ask_btn : bool)
  (snapshot_text local_stats : string) :
  App.ask_prompt_built ask_btn snapshot_text local_stats "" = None
  /\ App.ask_action client ask_btn snapshot_text local_stats "" = []
  /\ App.actions client ask_btn false snapshot_text local_stats "" = [].
Proof.
  assert (App.ask_prompt_built ask_btn snapshot_text local_stats "" = None) as E
      by (unfold App.ask_prompt_built; cbn; rewrite andb_false_r; reflexivity).
  unfold App.actions, App.ask_action, App.summary_action. rewrite E.
  repeat split.
Qed.

(** A question that is not empty does send one request with the question
    in its prompt. *)
Lemma ask_sends_request (client : App.CompletionClient)
  (snapshot_text local_stats : string) :
  exists rest,
    App.ask_action client true snapshot_text local_stats "Which is highest?"
    = App.st_spinner "Processing with Groq (Fast API)..."
      :: App.create (App.request
                       (App.ask_prompt snapshot_text local_stats "Which is highest?"))
      :: rest.
Proof. eexists. reflexivity. Qed.

(* ------------------------------------------------------------------ *)
(** ** Further properties of [clean_dataframe] *)

Lemma shr_1_nonneg (mrs : shr_record) :
  0 <= shr_m mrs -> 0 <= shr_m (shr_1 mrs).
Proof.
  destruct mrs as [m r s]. destruct m as [|p|p]; cbn; intros H;
    try destruct p; cbn; lia.
Qed.

Lemma iter_shr_1_nonneg (p : positive) (mrs : shr_record) :
  0 <= shr_m mrs -> 0 <= shr_m (iter_pos shr_1 p mrs).
Proof.
  revert mrs. induction p as [p IH|p IH|]; intros mrs H; cbn.
  - apply IH, IH, shr_1_nonneg, H.
  - apply IH, IH, H.
  - apply shr_1_nonneg, H.
Qed.

Lemma shr_fexp_nonneg (m e : Z) (l : location) :
  0 <= m -> 0 <= shr_m (fst (shr_fexp Float64.prec Float64.emax m e l)).
Proof.
  intros H. unfold shr_fexp, shr.
  assert (0 <= shr_m (shr_record_of_loc m l)) as H0
      by (destruct l as [|[| |]]; exact H).
  destruct (fexp _ _ _ - e); cbn [fst]; try exact H0.
  apply iter_shr_1_nonneg, H0.
Qed.

Lemma round_nearest_even_nonneg (m : Z) (l : location) :
  0 <= m -> 0 <= round_nearest_even m l.
Proof.
  intros H. destruct l as [|[| |]]; cbn; try lia.
  destruct (Z.even m); lia.
Qed.

(** The conversion of an integer is never NaN. *)
Lemma of_Z_not_nan (z : Z) : Float64.is_nan (Float64.of_Z z) = false.
Proof.
  assert (forall sx mx ex,
             Float64.is_nan
               (binary_round_aux Float64.prec Float64.emax sx (Zpos mx) ex loc_Exact)
             = false) as Haux.
  { intros sx mx ex. unfold binary_round_aux.
    pose proof (shr_fexp_nonneg (Zpos mx) ex loc_Exact ltac:(lia)) as H1.
    destruct (shr_fexp Float64.prec Float64.emax (Zpos mx) ex loc_Exact)
      as [mrs' e'].
    cbn [fst] in H1.
    pose proof (shr_fexp_nonneg
                  (round_nearest_even (shr_m mrs') (loc_of_shr_record mrs'))
                  e' loc_Exact
                  (round_nearest_even_nonneg _ _ H1)) as H2.
    destruct (shr_fexp Float64.prec Float64.emax _ e' loc_Exact) as [mrs'' e''].
    cbn [fst] in H2.
    destruct (shr_m mrs'') as [|m|m]; [reflexivity| |lia].
    destruct (e'' <=? _); reflexivity. }
  unfold Float64.of_Z, binary_normalize, binary_round.
  destruct z as [|p|p]; [reflexivity| |];
    destruct (shl_align _ _ _) as [mz ez]; apply Haux.
Qed.

Lemma existsb_false_In {A : Type} (p : A -> bool) (l : list A) (x : A) :
  existsb p l = false -> In x l -> p x = false.
Proof.
  intros H Hin. destruct (p x) eqn:E; [|reflexivity].
  rewrite <- H. symmetry. apply existsb_exists. exists x. auto.
Qed.

Ltac case_conditions_in H :=
  repeat match type of H with
         | context [if ?b then _ else _] => destruct b eqn:?
         end.

(** What [infer_dtype] has checked when it names a kind. *)
Lemma infer_dtype_string (v : list PyObj) :
  infer_dtype v = I_string ->
  forallb (fun o => is_str o || isna o) v = true.
Proof.
  intros H. unfold infer_dtype in H.
  destruct (find _ v) as [[]|]; case_conditions_in H;
    try discriminate H; reflexivity || assumption.
Qed.

Lemma infer_dtype_integer (v : list PyObj) :
  infer_dtype v = I_integer ->
  forallb (fun o => is_int o || isna o) v = true.
Proof.
  intros H. unfold infer_dtype in H.
  destruct (find _ v) as [[]|]; case_conditions_in H;
    try discriminate H; reflexivity || assumption.
Qed.

Lemma infer_dtype_mixed_integer_float (v : list PyObj) :
  infer_dtype v = I_mixed_integer_float ->
  forallb (fun o => is_int o || is_float o || isna o) v = true.
Proof.
  intros H. unfold infer_dtype in H.
  destruct (find _ v) as [[]|]; case_conditions_in H;
    try discriminate H; reflexivity || assumption.
Qed.

Lemma infer_dtype_boolean (v : list PyObj) :
  infer_dtype v = I_boolean ->
  forallb (fun o => is_bool o || isna o) v = true.
Proof.
  intros H. unfold infer_dtype in H.
  destruct (find _ v) as [[]|]; case_conditions_in H;
    try discriminate H; reflexivity || assumption.
Qed.

Lemma isna_cast_float64 (v : list Float64.t) :
  map isna
      (values (if forallb Float64.is_integral
                          (filter (fun x => negb (Float64.is_nan x)) v)
               then S_Int64 (map float_to_Int64 v)
               else S_Float64 (map float_to_Float64 v)))
  = map Float64.is_nan v.
Proof.
  destruct (forallb _ _); cbn [values]; rewrite !map_map; apply map_ext;
    intros x; unfold float_to_Int64, float_to_Float64;
    destruct (Float64.is_nan x) eqn:E; cbn; try reflexivity.
  exact E.
Qed.

Lemma isna_cast_inferred (v : list PyObj) :
  map isna
      (values (match infer_dtype v with
               | I_string => S_string (map obj_to_string v)
               | I_integer => S_Int64 (map obj_to_Int64 v)
               | I_mixed_integer_float => S_Float64 (map obj_to_Float64 v)
               | I_boolean => S_boolean (map obj_to_boolean v)
               | _ => S_object v
               end))
  = map isna v.
Proof.
  destruct (infer_dtype v) eqn:Ei; cbn [values]; try reflexivity;
    rewrite !map_map; apply map_ext_in; intros o Ho.
  - pose proof (infer_dtype_integer v Ei) as H.
    rewrite forallb_forall in H. specialize (H o Ho).
    destruct o as [z|x|t|b| |]; cbn in *; try discriminate H; try reflexivity.
    rewrite H. reflexivity.
  - pose proof (infer_dtype_mixed_integer_float v Ei) as H.
    rewrite forallb_forall in H. specialize (H o Ho).
    destruct o as [z|x|t|b| |]; cbn in *; try discriminate H; try reflexivity.
    + apply of_Z_not_nan.
    + unfold float_to_Float64.
      destruct (Float64.is_nan x) eqn:E; cbn; [reflexivity|exact E].
  - pose proof (infer_dtype_boolean v Ei) as H.
    rewrite forallb_forall in H. specialize (H o Ho).
    destruct o as [z|x|t|b| |]; cbn in *; try discriminate H; try reflexivity.
    rewrite H. reflexivity.
  - pose proof (infer_dtype_string v Ei) as H.
    rewrite forallb_forall in H. specialize (H o Ho).
    destruct o as [z|x|t|b| |]; cbn in *; try discriminate H; try reflexivity.
    rewrite H. reflexivity.
Qed.

(** [convert_dtypes] keeps every missing cell missing and every present
    cell present, in place. *)
Lemma convert_dtypes_series_isna (s : Series) :
  map isna (values (convert_dtypes_series s)) = map isna (values s).
Proof.
  destruct s as [v|v|v|v|v|v|v|v]; try reflexivity.
  - cbn. rewrite !map_map. reflexivity.
  - unfold convert_dtypes_series, infer_objects.
    rewrite isna_cast_float64. cbn [values]. rewrite map_map. reflexivity.
  - cbn. rewrite !map_map. reflexivity.
  - unfold convert_dtypes_series, infer_objects.
    cbv beta zeta delta [maybe_convert_objects]. cbn [values].
    destruct (existsb is_NA v || existsb is_str v) eqn:Eobj;
      [apply isna_cast_inferred|].
    apply orb_false_elim in Eobj. destruct Eobj as [ENA Estr].
    destruct (existsb is_bool v) eqn:Ebool.
    { destruct (existsb is_nan_float v || existsb is_none v
                || existsb (fun o => is_float o && negb (is_nan_float o)) v
                || existsb is_int v) eqn:Emix;
        [apply isna_cast_inferred|].
      apply orb_false_elim in Emix. destruct Emix as [Emix Eint].
      apply orb_false_elim in Emix. destruct Emix as [Emix Efl].
      apply orb_false_elim in Emix. destruct Emix as [Enan Enone].
      cbv beta iota. cbn [values]. rewrite !map_map.
      apply map_ext_in. intros o Ho.
      pose proof (existsb_false_In _ _ _ Enone Ho).
      pose proof (existsb_false_In _ _ _ Enan Ho).
      pose proof (existsb_false_In _ _ _ ENA Ho).
      destruct o; cbn in *; congruence. }
    assert (forall o, In o v ->
                      Float64.is_nan (to_float_or_nan o) = isna o) as Hfl.
    { intros o Ho.
      pose proof (existsb_false_In _ _ _ Estr Ho).
      pose proof (existsb_false_In _ _ _ Ebool Ho).
      pose proof (existsb_false_In _ _ _ ENA Ho).
      destruct o; cbn in *; try congruence.
      apply of_Z_not_nan. }
    assert (map Float64.is_nan (map to_float_or_nan v) = map isna v) as Hfloats
        by (rewrite map_map; apply map_ext_in; exact Hfl).
    destruct (existsb is_none v || existsb is_nan_float v) eqn:Enull.
    { destruct (existsb (fun o => is_float o && negb (is_nan_float o)) v
                || existsb is_int v || existsb is_nan_float v);
        [cbv beta iota; rewrite isna_cast_float64; exact Hfloats
        |apply isna_cast_inferred]. }
    apply orb_false_elim in Enull. destruct Enull as [Enone Enan].
    destruct (existsb (fun o => is_float o && negb (is_nan_float o)) v)
      eqn:Efl;
      [cbv beta iota; rewrite isna_cast_float64; exact Hfloats|].
    destruct (existsb is_int v) eqn:Eint; [|apply isna_cast_inferred].
    cbv beta iota. cbn [values]. rewrite !map_map.
    apply map_ext_in. intros o Ho.
    pose proof (existsb_false_In _ _ _ Enone Ho).
    pose proof (existsb_false_In _ _ _ Enan Ho).
    pose proof (existsb_false_In _ _ _ ENA Ho).
    destruct o; cbn in *; congruence.
Qed.

Lemma filter_none {A : Type} (p : A -> bool) (l : list A) :
  (forall x, In x l -> p x = false) -> filter p l = [].
Proof.
  induction l as [|x l IH]; intros H; cbn [filter]; [reflexivity|].
  rewrite (H x (or_introl eq_refl)). apply IH.
  intros y Hy. apply H. right. exact Hy.
Qed.

(** X1: the output of [clean_dataframe] carries exactly the labels of the
    input that do not begin with "Unnamed", in their original order (a
    repeated label stays repeated). *)
Theorem clean_dataframe_labels_in_order (df : DataFrame) :
  columns (clean_dataframe df)
  = filter (fun label => negb (Text.startswith "Unnamed" label)) (columns df).
Proof. apply clean_dataframe_columns. Qed.

(** X2: column by column, the output of [clean_dataframe] pairs with the
    kept columns of the input: same label, and either the cells that were
    missing are exactly the cells that are missing now, or the column was
    force-coerced and is an object column of strings, in which no cell is
    missing any more. *)
Theorem clean_dataframe_missing_cells (df : DataFrame) :
  Forall2 (fun c0 c =>
             fst c = fst c0
             /\ (map isna (values (snd c)) = map isna (values (snd c0))
                 \/ (dtype (snd c) = D_object
                     /\ forallb is_str (values (snd c)) = true
                     /\ existsb isna (values (snd c)) = false)))
          (filter kept (data df)) (data (clean_dataframe df)).
Proof.
  rewrite clean_dataframe_data. cbn [data].
  apply Forall2_map_In. intros c0 _. unfold retag.
  destruct (existsb _ _); cbn [fst snd].
  - split; [reflexivity|]. right. split; [reflexivity|].
    pose proof (uniform_astype_str (convert_dtypes_series (snd c0))) as Hu.
    cbn in Hu. split; [exact Hu|].
    destruct (existsb isna _) eqn:E; [|reflexivity].
    apply existsb_exists in E. destruct E as [o [Ho Hna]].
    rewrite forallb_forall in Hu. specialize (Hu o Ho).
    destruct o; discriminate Hu || discriminate Hna.
  - split; [reflexivity|]. left. apply convert_dtypes_series_isna.
Qed.

(** X4: the output of two applications of [clean_dataframe] is a fixed
    point: a third application returns it unchanged, dtypes included. *)
Theorem clean_dataframe_third_application (df : DataFrame) :
  clean_dataframe (clean_dataframe (clean_dataframe df))
  = clean_dataframe (clean_dataframe df).
Proof. apply clean_dataframe_fixed_after_two. Qed.

(** X5: a frame whose labels do not begin with "Unnamed" and whose columns
    all have a nullable dtype (Int64, Float64, boolean, string) is returned
    by [clean_dataframe] unchanged. *)
Theorem clean_dataframe_typed_unchanged (df : DataFrame) :
  Forall (fun c => Text.startswith "Unnamed" (fst c) = false
                   /\ nullable (snd c) = true) (data df) ->
  clean_dataframe df = df.
Proof.
  intros H. rewrite Forall_forall in H.
  rewrite clean_dataframe_data.
  assert (filter kept (data df) = data df) as Hk.
  { apply filter_all. intros c Hc. destruct (H c Hc) as [Hu _].
    unfold kept, str_contains_caret. rewrite Hu. reflexivity. }
  assert (forall c, In c (data df) -> converted c = c) as Hc.
  { intros c Hin. destruct (H c Hin) as [_ Hn]. unfold converted.
    rewrite (convert_dtypes_series_nullable _ Hn). destruct c. reflexivity. }
  assert (object_labels (data df) = []) as HL.
  { unfold object_labels. rewrite Hk.
    rewrite (map_ext_in _ (fun c => c) _ Hc), map_id.
    rewrite filter_none; [reflexivity|].
    intros c Hin. destruct (H c Hin) as [_ Hn].
    destruct (is_object c) eqn:E; [|reflexivity].
    apply is_object_dtype in E. destruct (nullable_not_object _ Hn E). }
  rewrite Hk, HL.
  rewrite (map_ext_in _ (fun c => c)), map_id; [destruct df; reflexivity|].
  intros c Hin. rewrite (Hc c Hin). reflexivity.
Qed.

(** A frame of four typed columns, two of them with missing cells. *)
Lemma clean_dataframe_typed_unchanged_witness :
  Forall (fun c => Text.startswith "Unnamed" (fst c) = false
                   /\ nullable (snd c) = true) (data typed_table)
  /\ clean_dataframe typed_table = typed_table.
Proof.
  assert (Forall (fun c => Text.startswith "Unnamed" (fst c) = false
                           /\ nullable (snd c) = true) (data typed_table)) as H
      by (repeat constructor).
  split; [exact H|].
  apply (clean_dataframe_typed_unchanged typed_table). exact H.
Defined.

(** X6: when every label of the input begins with "Unnamed",
    [clean_dataframe] returns a frame with no column and the same rows, and
    the statistics of that frame are the text "No numeric columns
    detected." whatever the limit. *)
Theorem clean_dataframe_all_dropped (df : DataFrame) (numeric_limit : Z) :
  Forall (fun label => Text.startswith "Unnamed" label = true) (columns df) ->
  clean_dataframe df = mkDataFrame (nrows df) []
  /\ local_basic_stats_text (clean_dataframe df) numeric_limit
     = Ok "No numeric columns detected.".
Proof.
  intros H. rewrite Forall_forall in H.
  assert (clean_dataframe df = mkDataFrame (nrows df) []) as E.
  { rewrite clean_dataframe_data.
    rewrite filter_none; [reflexivity|].
    intros c Hc. unfold kept, str_contains_caret.
    rewrite (H (fst c)); [reflexivity|]. apply in_map. exact Hc. }
  split; [exact E|]. rewrite E. reflexivity.
Qed.

(** Both labels of the table are export artefacts. *)
Lemma clean_dataframe_all_dropped_witness :
  Forall (fun label => Text.startswith "Unnamed" label = true)
         (columns artefact_table)
  /\ clean_dataframe artefact_table = mkDataFrame (nrows artefact_table) []
  /\ local_basic_stats_text (clean_dataframe artefact_table) 5
     = Ok "No numeric columns detected.".
Proof.
  assert (Forall (fun label => Text.startswith "Unnamed" label = true)
                 (columns artefact_table)) as H
      by (repeat constructor).
  split; [exact H|].
  apply (clean_dataframe_all_dropped artefact_table 5). exact H.
Defined.

(* ------------------------------------------------------------------ *)
(** ** Further properties of [build_dataset_snapshot] *)

Lemma unique_label_column (l : list (string * Series)) (c1 c2 : string * Series) :
  NoDup (map fst l) -> In c1 l -> In c2 l -> fst c1 = fst c2 -> c1 = c2.
Proof.
  intros Hnd H1 H2 E.
  pose proof (filter_label_unique c1 l Hnd H1) as F1.
  pose proof (filter_label_unique c2 l Hnd H2) as F2.
  rewrite E in F1. rewrite F1 in F2. injection F2. auto.
Qed.

(** X8: when the labels of the frame are distinct, no label is in both the
    numeric list and the categorical/text list of the snapshot. *)
Theorem snapshot_lists_disjoint (df : DataFrame) (label : string) :
  NoDup (columns df) ->
  In label (columns (select_dtypes numeric_dtypes df)) ->
  ~ In label (columns (select_dtypes text_dtypes df)).
Proof.
  intros Hnd H1 H2. unfold columns, select_dtypes in H1, H2. cbn [data] in *.
  apply in_map_iff in H1. destruct H1 as [c1 [E1 H1]].
  apply in_map_iff in H2. destruct H2 as [c2 [E2 H2]].
  apply filter_In in H1. destruct H1 as [H1 P1].
  apply filter_In in H2. destruct H2 as [H2 P2].
  assert (c1 = c2) as E
      by (apply (unique_label_column (data df)); auto; congruence).
  subst c2. destruct (dtype (snd c1)); discriminate P1 || discriminate P2.
Qed.

(** In the cleaned sales table "Sales" is numeric and not text. *)
Lemma snapshot_lists_disjoint_witness :
  NoDup (columns (clean_dataframe sales_table))
  /\ In "Sales" (columns (select_dtypes numeric_dtypes (clean_dataframe sales_table)))
  /\ ~ In "Sales" (columns (select_dtypes text_dtypes (clean_dataframe sales_table))).
Proof.
  assert (NoDup (columns (clean_dataframe sales_table))) as Hnd
      by (apply nodupb_sound; reflexivity).
  assert (In "Sales" (columns (select_dtypes numeric_dtypes
                                             (clean_dataframe sales_table)))) as Hin
      by (left; reflexivity).
  split; [exact Hnd|]. split; [exact Hin|].
  apply (snapshot_lists_disjoint (clean_dataframe sales_table) "Sales" Hnd Hin).
Defined.

Lemma values_slice_series (n : Z) (s : Series) :
  values (slice_series n s) = slice_to n (values s).
Proof.
  destruct s; cbn [slice_series values];
    try reflexivity; symmetry; apply slice_to_map.
Qed.

Lemma length_slice_to {A : Type} (n : Z) (xs : list A) :
  0 <= n ->
  Z.of_nat (List.length (slice_to n xs)) = Z.min n (Z.of_nat (List.length xs)).
Proof.
  intros H. unfold slice_to.
  assert ((n <? 0) = false) as E by (apply Z.ltb_ge; exact H).
  rewrite E, length_firstn. lia.
Qed.

(** X9: for a non-negative [max_rows] the sample [df.head(max_rows)] has
    [min(max_rows, len(df))] rows, the number the snapshot announces after
    "First", and every column of the sample has that many cells when the
    frame is well formed. *)
Theorem head_row_count (df : DataFrame) (max_rows : Z) :
  0 <= max_rows -> well_formed df ->
  Z.of_nat (nrows (head max_rows df)) = Z.min max_rows (len df)
  /\ well_formed (head max_rows df).
Proof.
  intros H0 Hwf. unfold head, len. cbn [nrows].
  split.
  - rewrite (length_slice_to max_rows _ H0), length_seq. reflexivity.
  - unfold well_formed in *. cbn [data nrows]. rewrite Forall_forall in *.
    intros c Hc. apply in_map_iff in Hc. destruct Hc as [c0 [E Hc0]].
    subst c. cbn [snd]. unfold size. rewrite values_slice_series.
    apply Nat2Z.inj.
    rewrite !(length_slice_to max_rows _ H0), length_seq.
    specialize (Hwf c0 Hc0). unfold size in Hwf. rewrite Hwf. reflexivity.
Qed.

(** The preview of the cleaned sales table has its three rows. *)
Lemma head_row_count_witness :
  0 <= 5 /\ well_formed (clean_dataframe sales_table)
  /\ Z.of_nat (nrows (head 5 (clean_dataframe sales_table)))
     = Z.min 5 (len (clean_dataframe sales_table))
  /\ well_formed (head 5 (clean_dataframe sales_table)).
Proof.
  assert (well_formed (clean_dataframe sales_table)) as Hwf
      by (repeat constructor).
  split; [discriminate|]. split; [exact Hwf|].
  apply (head_row_count (clean_dataframe sales_table) 5); [discriminate|exact Hwf].
Defined.

Lemma string_app_assoc (a b c : string) : (a ++ b) ++ c = a ++ (b ++ c).
Proof. induction a as [|x a IH]; cbn; [reflexivity|rewrite IH; reflexivity]. Qed.

Lemma split_on_not_nil (c : ascii) (s : string) : Text.split_on c s <> [].
Proof.
  destruct s as [|x s]; cbn; [discriminate|].
  destruct (Ascii.eqb x c); [discriminate|].
  destruct (Text.split_on c s); discriminate.
Qed.

(** Splitting distributes over a separator. *)
Lemma split_on_app (c : ascii) (a b : string) :
  Text.split_on c (a ++ String c b)
  = (Text.split_on c a ++ Text.split_on c b)%list.
Proof.
  induction a as [|x a IH]; cbn [append Text.split_on].
  - rewrite Ascii.eqb_refl. reflexivity.
  - destruct (Ascii.eqb x c); rewrite IH; [reflexivity|].
    pose proof (split_on_not_nil c a) as Hne.
    destruct (Text.split_on c a) as [|l ls]; [contradiction|reflexivity].
Qed.

Lemma split_on_first (c x : ascii) (s : string) :
  Ascii.eqb x c = false ->
  exists l ls, Text.split_on c (String x s) = String x l :: ls.
Proof.
  intros E. cbn [Text.split_on]. rewrite E.
  pose proof (split_on_not_nil c s) as Hne.
  destruct (Text.split_on c s) as [|l ls]; [contradiction|].
  exists l, ls. reflexivity.
Qed.

Lemma margin_step_empty (m : option string) :
  margin_step m EmptyString = Some EmptyString.
Proof. destruct m as [[|x m]|]; reflexivity. Qed.

Lemma margin_empty_stays (indents : list string) :
  fold_left margin_step indents (Some EmptyString) = Some EmptyString.
Proof. induction indents as [|i l IH]; cbn; [reflexivity|exact IH]. Qed.

(** One unindented line brings the common margin down to nothing. *)
Lemma margin_with_unindented (indents : list string) (m : option string) :
  In EmptyString indents ->
  fold_left margin_step indents m = Some EmptyString.
Proof.
  revert m. induction indents as [|i l IH]; intros m H; [destruct H|].
  cbn [fold_left]. destruct H as [E|H].
  - subst i. rewrite margin_step_empty. apply margin_empty_stays.
  - apply IH. exact H.
Qed.

(** [textwrap.dedent] strips no indentation from a text one of whose lines
    begins with a character that is neither a blank nor a line end. *)
Lemma dedent_unindented_line (text pre rest : string) (x : ascii) :
  text = pre ++ String (ascii_of_nat 10) (String x rest) ->
  is_blank_char x = false ->
  Ascii.eqb x (ascii_of_nat 10) = false ->
  dedent text
  = Text.join Text.LF (map blank_to_empty (Text.split_on (ascii_of_nat 10) text)).
Proof.
  intros Et Hx Hnl. unfold dedent.
  change (fun l : string => if blank_line l then EmptyString else l)
    with blank_to_empty.
  set (lines := map blank_to_empty (Text.split_on (ascii_of_nat 10) text)).
  assert (exists l, In (String x l) lines) as [l Hl].
  { unfold lines. rewrite Et, split_on_app.
    destruct (split_on_first (ascii_of_nat 10) x rest Hnl) as [l [ls E]].
    exists l. rewrite E, map_app. apply in_or_app. right. left.
    unfold blank_to_empty, blank_line. cbn [leading_blank]. rewrite Hx.
    reflexivity. }
  rewrite margin_with_unindented; [reflexivity|].
  apply in_map_iff. exists (String x l). split.
  - cbn [leading_blank]. rewrite Hx. reflexivity.
  - apply filter_In. split; [exact Hl|reflexivity].
Qed.

Lemma line_after_prefix (a t : string) (x : ascii) :
  (exists pre rest, t = pre ++ String (ascii_of_nat 10) (String x rest)) ->
  exists pre rest, a ++ t = pre ++ String (ascii_of_nat 10) (String x rest).
Proof.
  intros [pre [rest E]]. exists (a ++ pre), rest.
  rewrite E, string_app_assoc. reflexivity.
Qed.

(** X10: when the CSV sample has, after its first line, a line that begins
    with a character other than a space or a tab, [textwrap.dedent] removes
    no indentation from the snapshot: the result is the text of the
    f-string with only its blank lines emptied, so the lines of the fixed
    layout keep their four leading spaces. *)
Theorem snapshot_keeps_indentation
  (df : DataFrame) (max_rows : Z) (before after : string) (x : ascii) :
  to_csv (head max_rows df)
  = before ++ String (ascii_of_nat 10) (String x after) ->
  is_blank_char x = false ->
  Ascii.eqb x (ascii_of_nat 10) = false ->
  build_dataset_snapshot df max_rows
  = Text.join Text.LF
      (map blank_to_empty
           (Text.split_on (ascii_of_nat 10)
              (snapshot_template (shape df) (columns df)
                 (columns (select_dtypes numeric_dtypes df))
                 (columns (select_dtypes text_dtypes df))
                 (Z.min max_rows (len df))
                 (to_csv (head max_rows df))))).
Proof.
  intros Ecsv Hx Hnl. unfold build_dataset_snapshot.
  set (text := snapshot_template _ _ _ _ _ _).
  assert (exists pre rest,
             text = pre ++ String (ascii_of_nat 10) (String x rest))
    as [pre [rest Et]].
  { unfold text, snapshot_template. rewrite Ecsv.
    repeat match goal with
           | |- exists pre rest, ?a ++ ?t = _ =>
               lazymatch a with
               | _ ++ _ => fail
               | _ => apply line_after_prefix
               end
           end.
    exists before. eexists. rewrite string_app_assoc. reflexivity. }
  apply (dedent_unindented_line text pre rest x Et Hx Hnl).
Qed.

(** The sample of the cleaned sales table: its second line begins
    with "A". *)
Lemma snapshot_keeps_indentation_witness :
  to_csv (head 10 (clean_dataframe sales_table))
  = "Manufacturer,Sales"
    ++ String (ascii_of_nat 10)
         (String "A" ("cme,100" ++ Text.LF ++ "Acme,150" ++ Text.LF
                      ++ "Globex,200" ++ Text.LF))
  /\ build_dataset_snapshot (clean_dataframe sales_table) 10
     = Text.join Text.LF
         (map blank_to_empty
              (Text.split_on (ascii_of_nat 10)
                 (snapshot_template (shape (clean_dataframe sales_table))
                    (columns (clean_dataframe sales_table))
                    (columns (select_dtypes numeric_dtypes (clean_dataframe sales_table)))
                    (columns (select_dtypes text_dtypes (clean_dataframe sales_table)))
                    (Z.min 10 (len (clean_dataframe sales_table)))
                    (to_csv (head 10 (clean_dataframe sales_table)))))).
Proof.
  assert (to_csv (head 10 (clean_dataframe sales_table))
          = "Manufacturer,Sales"
            ++ String (ascii_of_nat 10)
                 (String "A" ("cme,100" ++ Text.LF ++ "Acme,150" ++ Text.LF
                              ++ "Globex,200" ++ Text.LF))) as E
      by (vm_compute; reflexivity).
  split; [exact E|].
  apply (snapshot_keeps_indentation (clean_dataframe sales_table) 10 _ _ _ E);
    reflexivity.
Defined.

(* ------------------------------------------------------------------ *)
(** ** Further properties of [local_basic_stats_text] *)

Lemma filter_idem {A : Type} (p : A -> bool) (l : list A) :
  filter p (filter p l) = filter p l.
Proof.
  apply filter_all. intros x H. apply filter_In in H. tauto.
Qed.

(** X11: the report depends on the numeric columns only: it is the report
    of the frame reduced to its int64, float64, Int64 and Float64 columns. *)
Theorem stats_ignore_other_columns (df : DataFrame) (numeric_limit : Z) :
  local_basic_stats_text df numeric_limit
  = local_basic_stats_text (select_dtypes numeric_dtypes df) numeric_limit.
Proof.
  unfold local_basic_stats_text.
  assert (select_dtypes numeric_dtypes (select_dtypes numeric_dtypes df)
          = select_dtypes numeric_dtypes df) as E
      by (unfold select_dtypes; cbn [data nrows]; rewrite filter_idem; reflexivity).
  rewrite E. reflexivity.
Qed.



(** X13: with [numeric_limit = 0] and at least one numeric column the
    report is the single line "...and <n> more numeric columns.", <n> the
    number of all numeric columns; no per-column line is computed, so
    labels may even repeat. *)
Theorem stats_limit_zero (df : DataFrame) :
  data (select_dtypes numeric_dtypes df) <> [] ->
  local_basic_stats_text df 0
  = Ok ("...and "
        ++ Text.str_int (snd (shape (select_dtypes numeric_dtypes df)))
        ++ " more numeric columns.").
Proof.
  intros Hne. unfold local_basic_stats_text.
  set (nums := select_dtypes numeric_dtypes df) in *.
  assert (0 < snd (shape nums)) as Hpos.
  { unfold shape. cbn [snd]. destruct (data nums); [contradiction|].
    cbn [List.length]. lia. }
  assert ((snd (shape nums) =? 0) = false) as E0 by (apply Z.eqb_neq; lia).
  assert ((0 <? snd (shape nums)) = true) as E1 by (apply Z.ltb_lt; exact Hpos).
  rewrite E0, E1. unfold slice_to. cbn [Z.ltb Z.compare Z.to_nat firstn for_each bind].
  rewrite Z.sub_0_r. reflexivity.
Qed.

(** Two numeric columns under one label. *)
Lemma stats_limit_zero_witness :
  data (select_dtypes numeric_dtypes repeated_table) <> []
  /\ local_basic_stats_text repeated_table 0
     = Ok "...and 2 more numeric columns.".
Proof.
  assert (data (select_dtypes numeric_dtypes repeated_table) <> []) as H
      by discriminate.
  split; [exact H|].
  apply (stats_limit_zero repeated_table H).
Defined.

Lemma filter_label_present (label : string) (l : list (string * Series)) :
  In label (map fst l) -> filter (fun c => String.eqb (fst c) label) l <> [].
Proof.
  intros H E. apply in_map_iff in H. destruct H as [c [Ec Hc]].
  assert (In c (filter (fun c => String.eqb (fst c) label) l)) as Hin
      by (apply filter_In; split; [exact Hc|rewrite Ec; apply String.eqb_refl]).
  rewrite E in Hin. destruct Hin.
Qed.

(** One pass of the loop either yields a line or raises the TypeError of the
    format; it raises when the label selects two columns or more. *)
Lemma stats_entry_cases (nums : DataFrame) (label : string) :
  In label (columns nums) ->
  (exists line, stats_entry nums (Stats.describe_transpose nums) label = Ok line)
  \/ stats_entry nums (Stats.describe_transpose nums) label
     = Raise (TypeError "unsupported format string passed to Series.__format__").
Proof.
  intros H. unfold stats_entry, Stats.describe_transpose.
  rewrite filter_map_swap. cbn [fst].
  pose proof (filter_label_present label (data nums) H) as Hne.
  destruct (filter _ (data nums)) as [|[n s] [|c' r]]; [contradiction| |].
  - left. eexists. reflexivity.
  - right. reflexivity.
Qed.

Lemma stats_entry_repeated (nums : DataFrame) (label : string) :
  (2 <= List.length (filter (fun c => String.eqb (fst c) label) (data nums)))%nat ->
  stats_entry nums (Stats.describe_transpose nums) label
  = Raise (TypeError "unsupported format string passed to Series.__format__").
Proof.
  intros H. unfold stats_entry, Stats.describe_transpose.
  rewrite filter_map_swap. cbn [fst].
  destruct (filter _ (data nums)) as [|[n s] [|c' r]]; cbn in H; try lia.
  reflexivity.
Qed.

Lemma for_each_raise {A B : Type} (f : A -> Result B) (e : Exn) (xs : list A) :
  (forall x, In x xs -> (exists y, f x = Ok y) \/ f x = Raise e) ->
  (exists x, In x xs /\ f x = Raise e) ->
  for_each f xs = Raise e.
Proof.
  induction xs as [|x xs IH]; intros Hall [x0 [Hin Hx0]]; [destruct Hin|].
  cbn [for_each].
  destruct (Hall x (or_introl eq_refl)) as [[y Ey]|Er].
  - rewrite Ey. cbn [bind]. rewrite IH; [reflexivity| |].
    + intros z Hz. apply Hall. right. exact Hz.
    + destruct Hin as [E|Hin]; [subst x0; congruence|].
      exists x0. auto.
  - rewrite Er. reflexivity.
Qed.

(** X14: when a label among those the loop visits is carried by two or
    more numeric columns, [local_basic_stats_text] raises the TypeError of
    formatting a Series with [:.3f], and returns no report. *)
Theorem stats_repeated_label_raises
  (df : DataFrame) (numeric_limit : Z) (label : string) :
  In label (slice_to numeric_limit (columns (select_dtypes numeric_dtypes df))) ->
  (2 <= List.length (filter (fun c => String.eqb (fst c) label)
                            (data (select_dtypes numeric_dtypes df))))%nat ->
  local_basic_stats_text df numeric_limit
  = Raise (TypeError "unsupported format string passed to Series.__format__").
Proof.
  intros Hin Hrep. unfold local_basic_stats_text.
  set (nums := select_dtypes numeric_dtypes df) in *.
  assert ((snd (shape nums) =? 0) = false) as E0.
  { apply Z.eqb_neq. unfold shape. cbn [snd].
    destruct (data nums); [cbn in Hrep; lia|cbn [List.length]; lia]. }
  rewrite E0.
  replace (map fst (Stats.describe_transpose nums)) with (columns nums)
    by (unfold Stats.describe_transpose, columns; rewrite map_map; reflexivity).
  rewrite (for_each_raise _
             (TypeError "unsupported format string passed to Series.__format__"));
    [reflexivity| |].
  - intros x Hx. apply stats_entry_cases.
    apply (slice_to_In numeric_limit). exact Hx.
  - exists label. split; [exact Hin|]. apply stats_entry_repeated. exact Hrep.
Qed.

(** The label "a" of the table is carried by two numeric columns. *)
Lemma stats_repeated_label_raises_witness :
  In "a" (slice_to 5 (columns (select_dtypes numeric_dtypes repeated_table)))
  /\ local_basic_stats_text repeated_table 5
     = Raise (TypeError "unsupported format string passed to Series.__format__").
Proof.
  assert (In "a" (slice_to 5 (columns (select_dtypes numeric_dtypes
                                                     repeated_table)))) as H
      by (left; reflexivity).
  split; [exact H|].
  apply (stats_repeated_label_raises repeated_table 5 "a" H).
  cbn. lia.
Defined.

Lemma cleaned_report_exists (df : DataFrame) (numeric_limit : Z) :
  NoDup (columns df) ->
  exists report,
    local_basic_stats_text (clean_dataframe df) numeric_limit = Ok report.
Proof.
  intros Hnd.
  pose proof (cleaned_numeric_labels_distinct df Hnd) as Hnum.
  destruct (data (select_dtypes numeric_dtypes (clean_dataframe df))) eqn:E.
  - eexists. unfold local_basic_stats_text, shape. cbn [snd].
    rewrite E. reflexivity.
  - eexists. apply (local_basic_stats_text_unique _ numeric_limit Hnum).
    rewrite E. discriminate.
Qed.

(** X15: on the output of [clean_dataframe] for a table with distinct
    labels, [local_basic_stats_text] returns a report for every limit: the
    statistics of a cleaned upload never raise. *)
Theorem cleaned_stats_never_raise (df : DataFrame) (numeric_limit : Z) :
  NoDup (columns df) ->
  exists report,
    local_basic_stats_text (clean_dataframe df) numeric_limit = Ok report.
Proof. apply cleaned_report_exists. Qed.

(** The sales table has distinct labels. *)
Lemma cleaned_stats_never_raise_witness :
  NoDup (columns sales_table)
  /\ exists report,
       local_basic_stats_text (clean_dataframe sales_table) 5 = Ok report.
Proof.
  assert (NoDup (columns sales_table)) as H
      by (apply nodupb_sound; reflexivity).
  split; [exact H|].
  apply (cleaned_stats_never_raise sales_table 5 H).
Defined.

(* ------------------------------------------------------------------ *)
(** ** Properties of a run of the script *)

Lemma requests_app (a b : list Script.Output) :
  Script.requests (a ++ b) = (Script.requests a ++ Script.requests b)%list.
Proof. apply flat_map_app. Qed.

Lemma requests_complete (client : App.CompletionClient)
  (spinner heading prompt : string) :
  Script.requests (map Script.action (App.complete client spinner heading prompt))
  = [App.request prompt].
Proof. unfold App.complete. destruct (client _); reflexivity. Qed.

(** The requests of the two button blocks. *)
Lemma requests_actions (client : App.CompletionClient) (ask_btn summary_btn : bool)
  (snapshot_text local_stats user_question : string) :
  Script.requests
    (map Script.action
         (App.actions client ask_btn summary_btn snapshot_text local_stats
                      user_question))
  = ((if ask_btn && App.truthy user_question
      then [App.request (App.ask_prompt snapshot_text local_stats user_question)]
      else [])
     ++ (if summary_btn
         then [App.request (App.summary_prompt snapshot_text local_stats)]
         else []))%list.
Proof.
  unfold App.actions, App.ask_action, App.ask_prompt_built, App.summary_action.
  rewrite map_app, requests_app.
  destruct (ask_btn && App.truthy user_question), summary_btn;
    rewrite ?requests_complete; reflexivity.
Qed.

Lemma requests_main_logic (w : Script.World) (i : Script.Inputs) (df : DataFrame) :
  Script.requests (Script.main_logic w i df)
  = match local_basic_stats_text (clean_dataframe df) 5 with
    | Ok local_stats =>
        Script.requests
          (map Script.action
               (App.actions (Script.client w) (Script.ask_btn i)
                  (Script.summary_btn i)
                  (build_dataset_snapshot (clean_dataframe df) 10)
                  local_stats (Script.user_question i)))
    | Raise _ => []
    end.
Proof.
  unfold Script.main_logic.
  destruct (local_basic_stats_text (clean_dataframe df) 5); reflexivity.
Qed.





(** X18: every request of every run names the model
    "llama-3.1-8b-instant", has temperature 0.2 and a single message of role
    "user"; a run sends at most two requests. *)
Theorem run_requests_shape (w : Script.World) (i : Script.Inputs) :
  Forall (fun req =>
            App.model req = "llama-3.1-8b-instant"
            /\ App.temperature req = Float64.div (Float64.of_Z 2) (Float64.of_Z 10)
            /\ exists prompt, App.messages req = [App.mkMessage "user" prompt])
         (Script.requests (Script.run w i))
  /\ (List.length (Script.requests (Script.run w i)) <= 2)%nat.
Proof.
  assert (Script.requests (Script.run w i) = []
          \/ exists snapshot_text local_stats,
               Script.requests (Script.run w i)
               = Script.requests
                   (map Script.action
                        (App.actions (Script.client w) (Script.ask_btn i)
                           (Script.summary_btn i) snapshot_text local_stats
                           (Script.user_question i)))) as [E|[sn [st E]]].
  { unfold Script.run.
    destruct (Script.key_missing _); [left; reflexivity|].
    destruct (Script.uploaded i) as [f|]; [|left; reflexivity].
    destruct (Script.read_uploaded w f) as [df|e]; [|left; reflexivity].
    cbn [Script.requests flat_map app].
    change (flat_map _ (Script.main_logic w i df))
      with (Script.requests (Script.main_logic w i df)).
    rewrite requests_main_logic.
    destruct (local_basic_stats_text _ 5); [right|left; reflexivity].
    eexists. eexists. reflexivity. }
  - rewrite E. split; [constructor|cbn; lia].
  - rewrite E, requests_actions.
    destruct (Script.ask_btn i && App.truthy (Script.user_question i)),
             (Script.summary_btn i); cbn [app List.length];
      (split; [|lia]);
      repeat constructor; eexists; reflexivity.
Qed.

Lemma length_lower (s : string) :
  String.length (StrMethods.lower s) = String.length s.
Proof. induction s as [|c s IH]; cbn; [reflexivity|rewrite IH; reflexivity]. Qed.

Lemma lower_app (a b : string) :
  StrMethods.lower (a ++ b) = StrMethods.lower a ++ StrMethods.lower b.
Proof. induction a as [|c a IH]; cbn; [reflexivity|rewrite IH; reflexivity]. Qed.

Lemma length_string_app (a b : string) :
  String.length (a ++ b) = (String.length a + String.length b)%nat.
Proof. induction a as [|c a IH]; cbn; [reflexivity|rewrite IH; reflexivity]. Qed.

Lemma substring_whole (b : string) : String.substring 0 (String.length b) b = b.
Proof. induction b as [|c b IH]; cbn; [reflexivity|rewrite IH; reflexivity]. Qed.

Lemma substring_suffix (a b : string) :
  String.substring (String.length a) (String.length b) (a ++ b) = b.
Proof. induction a as [|c a IH]; cbn; [apply substring_whole|exact IH]. Qed.

Lemma endswith_app (a b : string) : StrMethods.endswith b (a ++ b) = true.
Proof.
  unfold StrMethods.endswith. rewrite length_string_app.
  replace (String.length a + String.length b - String.length b)%nat
    with (String.length a) by lia.
  rewrite substring_suffix, String.eqb_refl.
  rewrite andb_true_r. apply Nat.leb_le. lia.
Qed.

(** X19: a file whose name ends with ".csv", in any mix of upper and lower
    case, is read with [pd.read_csv]. *)
Theorem csv_read_by_extension
  (w : Script.World) (base ext payload : string) :
  StrMethods.lower ext = ".csv" ->
  Script.read_uploaded w (Script.mkUploadedFile (base ++ ext) payload)
  = Script.read_csv w payload.
Proof.
  intros H. unfold Script.read_uploaded. cbn [Script.name Script.payload].
  rewrite lower_app, H, endswith_app. reflexivity.
Qed.

(** "Sales.CSV" goes to the CSV reader. *)
Lemma csv_read_by_extension_witness :
  StrMethods.lower ".CSV" = ".csv"
  /\ Script.read_uploaded csv_world
       (Script.mkUploadedFile ("Sales" ++ ".CSV") "Unnamed: 0,Manufacturer,Sales")
     = Script.read_csv csv_world "Unnamed: 0,Manufacturer,Sales".
Proof.
  split; [reflexivity|].
  apply (csv_read_by_extension csv_world "Sales" ".CSV"). reflexivity.
Defined.
